(** * solid-dropzone: the [useDropzone] hook of [src/index.tsx]

    A shallow embedding of the hook's state, of its event handlers and of
    the file filtering pipeline, followed by the properties the
    specification states about them.

    The hook is a closure over seven signals, two element references and
    three mutable locals.  Here the closure's variables are the fields of
    [State]; a handler is a computation in the monad [M], which threads the
    state and writes the calls a handler makes to the outside (user
    callbacks, DOM methods, the console) to a log of [Effect]s.  A promise
    the hook chains on, or a timer it sets, is a [Task] in the closure's
    [pending] queue; it comes back as the input [Settle], with what the
    outside answers (the extracted files, the failure, the files the input
    holds).

    Left out: the effects that mirror props into DOM attributes and that
    add and remove the window and document listeners, the [role], [refKey]
    and rest props of the two bundles, and the [Dropzone] wrapper
    component. *)

From stdpp Require Import base option list strings.
From Stdlib Require Import ZArith Lia.

Open Scope Z_scope.

(** ** Data model *)

(** A DOM node, by identity. *)
Definition Node := nat.

Record File := {
  file_name : string;
  file_size : Z;
  file_type : string;
}.

Record FileError := {
  code : string;
  message : string;
}.

Record FileRejection := {
  file : File;
  errors : list FileError;
}.

(** What a [validator] returns: [FileError | FileError[] | null]. *)
Inductive ValidatorResult :=
| VNull
| VError (e : FileError)
| VErrors (es : list FileError).

(** JavaScript truthiness of a validator result, as [!customErrors] and
    [if (customErrors)] read it: [null] is falsy, an object is truthy and so
    is every array, the empty one included. *)
Definition truthy (r : ValidatorResult) : bool :=
  match r with
  | VNull => false
  | VError _ => true
  | VErrors _ => true
  end.

(** [Array.isArray(customErrors) ? customErrors : [customErrors]], read
    where [customErrors] is truthy. *)
Definition asArray (r : ValidatorResult) : list FileError :=
  match r with
  | VNull => []
  | VError e => [e]
  | VErrors es => es
  end.

Record Error := {
  error_name : string;
  error_message : string;
}.

(** The [dataTransfer] slot of an event: the property is missing (a plain
    [Event], such as the input's change event), it is [null], or it holds a
    transfer whose [files] list may be empty. *)
Inductive DataTransferSlot :=
| NoDataTransfer
| NullDataTransfer
| DataTransfer (files : list File).

(** An event as a handler receives it. *)
Record DomEvent := {
  target : Node;
  dataTransfer : DataTransferSlot;
  (** [(event.target as HTMLInputElement).files] *)
  target_files : option (list File);
  cancelBubble : bool;
  key : string;
  keyCode : Z;
  (** [typeof event.stopImmediatePropagation === 'function'] *)
  hasStopImmediatePropagation : bool;
}.

(** [maxSize] is a number whose default is [Infinity]. *)
Inductive Size :=
| Bytes (n : Z)
| Infinity.

(** The merged props ([local]).  A callback prop is the flag that says
    whether the caller supplied it; calling it is an [Effect].  [accept] is
    read through the memo [acceptAttr], so the record holds the attribute
    string ([None] for [undefined]). *)
Record Props := {
  acceptAttr : option string;
  disabled : bool;
  maxSize : Size;
  minSize : Z;
  multiple : bool;
  maxFiles : Z;
  onDragEnter : bool;
  onDragLeave : bool;
  onDragOver : bool;
  onDrop : bool;
  onDropAccepted : bool;
  onDropRejected : bool;
  onFileDialogCancel : bool;
  onFileDialogOpen : bool;
  useFsAccessApi : bool;
  autoFocus : bool;
  preventDropOnDocument : bool;
  noClick : bool;
  noKeyboard : bool;
  noDrag : bool;
  noDragEventsBubbling : bool;
  onError : bool;
  validator : option (File -> ValidatorResult);
}.

(** Work the hook leaves for later: the promises it chains on and the timers
    it sets. *)
Inductive Task :=
(** [Promise.resolve(local.getFilesFromEvent(event))] of [onDragEnterCb] *)
| EnterExtraction (event : DomEvent)
(** the same promise of [onDropCb] *)
| DropExtraction (event : DomEvent)
(** [showOpenFilePicker(opts).then(getFilesFromEvent)] *)
| PickerPromise
(** [setTimeout(..., 300)] of [onWindowFocus] *)
| FocusTimer
(** [setTimeout(openFileDialog, 0)] of [onClickCb] *)
| OpenDialogTimer
(** [setTimeout(() => { openCalledInThisTick = false }, 0)] of [open] *)
| ResetOpenFlagTimer.

(** The delay each task was scheduled with, in milliseconds; promises have
    none. *)
Definition delay (t : Task) : option Z :=
  match t with
  | FocusTimer => Some 300
  | OpenDialogTimer => Some 0
  | ResetOpenFlagTimer => Some 0
  | _ => None
  end.

(** How a pending task comes back. *)
Inductive Outcome :=
(** the promise is fulfilled with [files]; [propagationStopped] is what
    [isPropagationStopped(event)] answers at that moment *)
| Fulfilled (files : list File) (propagationStopped : bool)
(** the promise is rejected *)
| Rejected (e : Error)
(** the timer fires; [inputFiles] is [inputRef.files] at that moment *)
| Fired (inputFiles : option (list File)).

(** The calls a handler makes to the outside. *)
Inductive Effect :=
| PreventDefault (event : DomEvent)
| StopPropagation (event : DomEvent)
| StopImmediatePropagation (event : DomEvent)
| SetDropEffectCopy (event : DomEvent)
| GetFilesFromEvent (event : DomEvent)
| CallOnDragEnter (event : DomEvent)
| CallOnDragOver (event : DomEvent)
| CallOnDragLeave (event : DomEvent)
| CallOnDrop (accepted : list File) (rejected : list FileRejection) (event : DomEvent)
(** [local.onDrop] run as the first handler of the root's drop slot *)
| CallOnDropAsHandler (event : DomEvent)
| CallOnDropRejected (rejected : list FileRejection) (event : DomEvent)
| CallOnDropAccepted (accepted : list File) (event : DomEvent)
| CallOnFileDialogOpen
| CallOnFileDialogCancel
| CallOnError (e : Error)
| ConsoleErrorTagged (e : Error)
| ConsoleError (e : Error)
| ShowOpenFilePicker (multiple : bool)
| InputSetValue (input : Node) (value : string)
| InputClick (input : Node).

(** The closure of one hook instance. *)
Record State := {
  isFocused : bool;
  isFileDialogActive : bool;
  isDragActive : bool;
  isDragAccept : bool;
  isDragReject : bool;
  acceptedFiles : list File;
  fileRejections : list FileRejection;
  rootRef : option Node;
  inputRef : option Node;
  openCalledInThisTick : bool;
  dragTargets : list Node;
  fsAccessApiWorks : bool;
  pending : list Task;
}.

#[global] Instance File_eq_dec : EqDecision File.
Proof. solve_decision. Defined.
#[global] Instance DataTransferSlot_eq_dec : EqDecision DataTransferSlot.
Proof. solve_decision. Defined.
#[global] Instance DomEvent_eq_dec : EqDecision DomEvent.
Proof. solve_decision. Defined.
#[global] Instance Task_eq_dec : EqDecision Task.
Proof. solve_decision. Defined.

(** ** Writing to the closure's variables *)

Definition setIsFocused (v : bool) (s : State) : State :=
  {| isFocused := v; isFileDialogActive := isFileDialogActive s;
     isDragActive := isDragActive s; isDragAccept := isDragAccept s;
     isDragReject := isDragReject s; acceptedFiles := acceptedFiles s;
     fileRejections := fileRejections s; rootRef := rootRef s;
     inputRef := inputRef s; openCalledInThisTick := openCalledInThisTick s;
     dragTargets := dragTargets s; fsAccessApiWorks := fsAccessApiWorks s;
     pending := pending s |}.

Definition setIsFileDialogActive (v : bool) (s : State) : State :=
  {| isFocused := isFocused s; isFileDialogActive := v;
     isDragActive := isDragActive s; isDragAccept := isDragAccept s;
     isDragReject := isDragReject s; acceptedFiles := acceptedFiles s;
     fileRejections := fileRejections s; rootRef := rootRef s;
     inputRef := inputRef s; openCalledInThisTick := openCalledInThisTick s;
     dragTargets := dragTargets s; fsAccessApiWorks := fsAccessApiWorks s;
     pending := pending s |}.

Definition setIsDragActive (v : bool) (s : State) : State :=
  {| isFocused := isFocused s; isFileDialogActive := isFileDialogActive s;
     isDragActive := v; isDragAccept := isDragAccept s;
     isDragReject := isDragReject s; acceptedFiles := acceptedFiles s;
     fileRejections := fileRejections s; rootRef := rootRef s;
     inputRef := inputRef s; openCalledInThisTick := openCalledInThisTick s;
     dragTargets := dragTargets s; fsAccessApiWorks := fsAccessApiWorks s;
     pending := pending s |}.

Definition setIsDragAccept (v : bool) (s : State) : State :=
  {| isFocused := isFocused s; isFileDialogActive := isFileDialogActive s;
     isDragActive := isDragActive s; isDragAccept := v;
     isDragReject := isDragReject s; acceptedFiles := acceptedFiles s;
     fileRejections := fileRejections s; rootRef := rootRef s;
     inputRef := inputRef s; openCalledInThisTick := openCalledInThisTick s;
     dragTargets := dragTargets s; fsAccessApiWorks := fsAccessApiWorks s;
     pending := pending s |}.

Definition setIsDragReject (v : bool) (s : State) : State :=
  {| isFocused := isFocused s; isFileDialogActive := isFileDialogActive s;
     isDragActive := isDragActive s; isDragAccept := isDragAccept s;
     isDragReject := v; acceptedFiles := acceptedFiles s;
     fileRejections := fileRejections s; rootRef := rootRef s;
     inputRef := inputRef s; openCalledInThisTick := openCalledInThisTick s;
     dragTargets := dragTargets s; fsAccessApiWorks := fsAccessApiWorks s;
     pending := pending s |}.

Definition setAcceptedFiles (v : list File) (s : State) : State :=
  {| isFocused := isFocused s; isFileDialogActive := isFileDialogActive s;
     isDragActive := isDragActive s; isDragAccept := isDragAccept s;
     isDragReject := isDragReject s; acceptedFiles := v;
     fileRejections := fileRejections s; rootRef := rootRef s;
     inputRef := inputRef s; openCalledInThisTick := openCalledInThisTick s;
     dragTargets := dragTargets s; fsAccessApiWorks := fsAccessApiWorks s;
     pending := pending s |}.

Definition setFileRejections (v : list FileRejection) (s : State) : State :=
  {| isFocused := isFocused s; isFileDialogActive := isFileDialogActive s;
     isDragActive := isDragActive s; isDragAccept := isDragAccept s;
     isDragReject := isDragReject s; acceptedFiles := acceptedFiles s;
     fileRejections := v; rootRef := rootRef s;
     inputRef := inputRef s; openCalledInThisTick := openCalledInThisTick s;
     dragTargets := dragTargets s; fsAccessApiWorks := fsAccessApiWorks s;
     pending := pending s |}.

Definition setRootRef (v : option Node) (s : State) : State :=
  {| isFocused := isFocused s; isFileDialogActive := isFileDialogActive s;
     isDragActive := isDragActive s; isDragAccept := isDragAccept s;
     isDragReject := isDragReject s; acceptedFiles := acceptedFiles s;
     fileRejections := fileRejections s; rootRef := v;
     inputRef := inputRef s; openCalledInThisTick := openCalledInThisTick s;
     dragTargets := dragTargets s; fsAccessApiWorks := fsAccessApiWorks s;
     pending := pending s |}.

Definition setInputRef (v : option Node) (s : State) : State :=
  {| isFocused := isFocused s; isFileDialogActive := isFileDialogActive s;
     isDragActive := isDragActive s; isDragAccept := isDragAccept s;
     isDragReject := isDragReject s; acceptedFiles := acceptedFiles s;
     fileRejections := fileRejections s; rootRef := rootRef s;
     inputRef := v; openCalledInThisTick := openCalledInThisTick s;
     dragTargets := dragTargets s; fsAccessApiWorks := fsAccessApiWorks s;
     pending := pending s |}.

Definition setOpenCalledInThisTick (v : bool) (s : State) : State :=
  {| isFocused := isFocused s; isFileDialogActive := isFileDialogActive s;
     isDragActive := isDragActive s; isDragAccept := isDragAccept s;
     isDragReject := isDragReject s; acceptedFiles := acceptedFiles s;
     fileRejections := fileRejections s; rootRef := rootRef s;
     inputRef := inputRef s; openCalledInThisTick := v;
     dragTargets := dragTargets s; fsAccessApiWorks := fsAccessApiWorks s;
     pending := pending s |}.

Definition setDragTargets (v : list Node) (s : State) : State :=
  {| isFocused := isFocused s; isFileDialogActive := isFileDialogActive s;
     isDragActive := isDragActive s; isDragAccept := isDragAccept s;
     isDragReject := isDragReject s; acceptedFiles := acceptedFiles s;
     fileRejections := fileRejections s; rootRef := rootRef s;
     inputRef := inputRef s; openCalledInThisTick := openCalledInThisTick s;
     dragTargets := v; fsAccessApiWorks := fsAccessApiWorks s;
     pending := pending s |}.

Definition setFsAccessApiWorks (v : bool) (s : State) : State :=
  {| isFocused := isFocused s; isFileDialogActive := isFileDialogActive s;
     isDragActive := isDragActive s; isDragAccept := isDragAccept s;
     isDragReject := isDragReject s; acceptedFiles := acceptedFiles s;
     fileRejections := fileRejections s; rootRef := rootRef s;
     inputRef := inputRef s; openCalledInThisTick := openCalledInThisTick s;
     dragTargets := dragTargets s; fsAccessApiWorks := v;
     pending := pending s |}.

Definition setPending (v : list Task) (s : State) : State :=
  {| isFocused := isFocused s; isFileDialogActive := isFileDialogActive s;
     isDragActive := isDragActive s; isDragAccept := isDragAccept s;
     isDragReject := isDragReject s; acceptedFiles := acceptedFiles s;
     fileRejections := fileRejections s; rootRef := rootRef s;
     inputRef := inputRef s; openCalledInThisTick := openCalledInThisTick s;
     dragTargets := dragTargets s; fsAccessApiWorks := fsAccessApiWorks s;
     pending := v |}.

(** ** The handler monad: state and a log of effects *)

Definition M (A : Type) : Type := State -> A * State * list Effect.

#[global] Instance M_ret : MRet M := fun A a s => (a, s, []).

#[global] Instance M_bind : MBind M := fun A B f m s =>
  let '(a, s1, l1) := m s in
  let '(b, s2, l2) := f a s1 in
  (b, s2, l1 ++ l2).

(** Read one of the closure's variables. *)
Definition read {A} (proj : State -> A) : M A := fun s => (proj s, s, []).

(** Write one of them. *)
Definition write (upd : State -> State) : M unit := fun s => (tt, upd s, []).

(** Call out. *)
Definition emit (e : Effect) : M unit := fun s => (tt, s, [e]).

(** [if (c) { m }] *)
Definition when (c : bool) (m : M unit) : M unit :=
  if c then m else mret tt.

(** Hand a task to the event loop. *)
Definition schedule (t : Task) : M unit :=
  write (fun s => setPending (pending s ++ [t]) s).

(** The state and the log a handler leaves. *)
Definition exec {A} (m : M A) (s : State) : State * list Effect :=
  let '(_, s', l) := m s in (s', l).

Definition state_after {A} (m : M A) (s : State) : State := fst (exec m s).
Definition log_of {A} (m : M A) (s : State) : list Effect := snd (exec m s).

(** ** What the hook imports

    [./utils] is not part of the sources at hand, nor is the DOM: the
    helpers the hook calls are the fields of [Env], and every property below
    holds for whatever they compute. *)
Class Env := {
  (** [fileAccepted(file, acceptAttr())]: the verdict and the type error *)
  fileAccepted : File -> option string -> bool * option FileError;
  (** [fileMatchSize(file, minSize, maxSize)]: the verdict and the size error *)
  fileMatchSize : File -> Z -> Size -> bool * option FileError;
  (** [allFilesAccepted({files, accept, minSize, maxSize, multiple, maxFiles, validator})] *)
  allFilesAccepted :
    list File -> option string -> Z -> Size -> bool -> Z ->
    option (File -> ValidatorResult) -> bool;
  isEvtWithFiles : DomEvent -> bool;
  isAbort : Error -> bool;
  isSecurityError : Error -> bool;
  isIeOrEdge : bool;
  (** [window.isSecureContext] and [canUseFileSystemAccessAPI()] *)
  isSecureContext : bool;
  canUseFileSystemAccessAPI : bool;
  (** [root.contains(node)] *)
  contains : Node -> Node -> bool;
  (** [root.isEqualNode(node)] *)
  isEqualNode : Node -> Node -> bool;
}.

(** Modelled from the spec: the constant [TOO_MANY_FILES_REJECTION] of
    [./utils], whose code the spec gives as [too-many-files]; the tests
    expect the message below. *)
Definition TOO_MANY_FILES_REJECTION : FileError :=
  {| code := "too-many-files"; message := "Too many files" |}.

Definition defaultProps : Props :=
  {| acceptAttr := None; disabled := false; maxSize := Infinity; minSize := 0;
     multiple := true; maxFiles := 0;
     onDragEnter := false; onDragLeave := false; onDragOver := false;
     onDrop := false; onDropAccepted := false; onDropRejected := false;
     onFileDialogCancel := false; onFileDialogOpen := false;
     useFsAccessApi := false; autoFocus := false; preventDropOnDocument := true;
     noClick := false; noKeyboard := false; noDrag := false;
     noDragEventsBubbling := false; onError := false; validator := None |}.

(** [array.length > 0] *)
Definition nonEmpty {A} (l : list A) : bool :=
  match l with
  | [] => false
  | _ :: _ => true
  end.

(** [array.includes(x)] *)
Definition includes (l : list Node) (x : Node) : bool := bool_decide (x ∈ l).

(** [array.indexOf(x)], [None] for [-1] *)
Definition indexOf (l : list Node) (x : Node) : option nat :=
  fst <$> list_find (fun y => y = x) l.

(** [array.splice(i, 1)] *)
Definition splice1 {A} (i : nat) (l : list A) : list A := delete i l.

Section Hook.

Context {env : Env}.

(** The props as the handler at hand reads them ([local]). *)
Variable props : Props.

(** *** The filtering pipeline ([setFiles]) *)

(** The body of [files.forEach] (lines 335 to 351): it pushes [file] on one
    of the two arrays. *)
Definition setFiles_forEach
    (arrays : list File * list FileRejection) (file : File)
    : list File * list FileRejection :=
  let '(newAcceptedFiles, newFileRejections) := arrays in
  let '(accepted, acceptError) := fileAccepted file (acceptAttr props) in
  let '(sizeMatch, sizeError) := fileMatchSize file (minSize props) (maxSize props) in
  let customErrors :=
    match validator props with
    | Some validate => validate file
    | None => VNull
    end in
  if accepted && sizeMatch && negb (truthy customErrors) then
    (newAcceptedFiles ++ [file], newFileRejections)
  else
    let errors := omap id [acceptError; sizeError] in
    let errors :=
      if truthy customErrors then errors ++ asArray customErrors else errors in
    (newAcceptedFiles, newFileRejections ++ [{| file := file; errors := errors |}]).

(** The two arrays after the per-file step. *)
Definition perFile (files : list File) : list File * list FileRejection :=
  foldl setFiles_forEach ([], []) files.

(** The guard of lines 353 to 356. *)
Definition tooManyFiles (newAcceptedFiles : list File) : bool :=
  (negb (multiple props) && (1 <? Z.of_nat (length newAcceptedFiles)))
  || (multiple props && (1 <=? maxFiles props)
      && (maxFiles props <? Z.of_nat (length newAcceptedFiles))).

(** The body of the guarded [forEach] (line 358). *)
Definition pushTooMany (rejections : list FileRejection) (file : File)
    : list FileRejection :=
  rejections ++ [{| file := file; errors := [TOO_MANY_FILES_REJECTION] |}].

(** The two arrays as [setFiles] publishes them (lines 332 to 361). *)
Definition filteredFiles (files : list File) : list File * list FileRejection :=
  let '(newAcceptedFiles, newFileRejections) := perFile files in
  if tooManyFiles newAcceptedFiles then
    ([], foldl pushTooMany newFileRejections newAcceptedFiles)
  else
    (newAcceptedFiles, newFileRejections).

Definition setFiles (files : list File) (event : option DomEvent) : M unit :=
  let '(newAcceptedFiles, newFileRejections) := filteredFiles files in
  write (setAcceptedFiles newAcceptedFiles);;
  write (setFileRejections newFileRejections);;
  write (setIsDragReject (nonEmpty newFileRejections));;
  match event with
  | Some event =>
      when (onDrop props)
        (emit (CallOnDrop newAcceptedFiles newFileRejections event));;
      when (nonEmpty newFileRejections && onDropRejected props)
        (emit (CallOnDropRejected newFileRejections event));;
      when (nonEmpty newAcceptedFiles && onDropAccepted props)
        (emit (CallOnDropAccepted newAcceptedFiles event))
  | None => mret tt
  end.

(** *** Errors *)

Definition onErrCb (e : Error) : M unit :=
  emit (ConsoleErrorTagged e);;
  if onError props then emit (CallOnError e) else emit (ConsoleError e).

(** *** Drag handlers *)

Definition stopPropagation (event : DomEvent) : M unit :=
  when (noDragEventsBubbling props)
    (if hasStopImmediatePropagation event
     then emit (StopImmediatePropagation event)
     else emit (StopPropagation event)).

(** [event.dataTransfer.files] where [dt?.files?.length] is truthy. *)
Definition syncFilesOf (event : DomEvent) : option (list File) :=
  match dataTransfer event with
  | DataTransfer (f :: fs) => Some (f :: fs)
  | _ => None
  end.

Definition allAccepted (files : list File) : bool :=
  allFilesAccepted files (acceptAttr props) (minSize props) (maxSize props)
    (multiple props) (maxFiles props) (validator props).

Definition resetDragState : M unit :=
  write (setIsDragActive false);;
  write (setIsDragAccept false);;
  write (setIsDragReject false).

Definition onDragEnterCb (event : DomEvent) : M unit :=
  emit (PreventDefault event);;
  stopPropagation event;;
  targets ← read dragTargets;
  write (setDragTargets (targets ++ [target event]));;
  emit (GetFilesFromEvent event);;
  match syncFilesOf event with
  | Some syncFiles =>
      let accept := allAccepted syncFiles in
      write (setIsDragActive true);;
      write (setIsDragAccept accept);;
      write (setIsDragReject (negb accept));;
      when (onDragEnter props) (emit (CallOnDragEnter event))
  | None =>
      when (isEvtWithFiles event)
        (emit (GetFilesFromEvent event);;
         schedule (EnterExtraction event))
  end.

(** The [.then] of [onDragEnterCb]'s promise. *)
Definition onDragEnterCb_then
    (event : DomEvent) (files : list File) (propagationStopped : bool) : M unit :=
  if propagationStopped && negb (noDragEventsBubbling props) then mret tt
  else
    let dragAccept := nonEmpty files && allAccepted files in
    let dragReject := nonEmpty files && negb dragAccept in
    write (setIsDragAccept dragAccept);;
    write (setIsDragReject dragReject);;
    write (setIsDragActive true);;
    when (onDragEnter props) (emit (CallOnDragEnter event)).

Definition hasTransfer (event : DomEvent) : bool :=
  match dataTransfer event with
  | DataTransfer _ => true
  | _ => false
  end.

(** The handler returns [false]. *)
Definition onDragOverCb (event : DomEvent) : M bool :=
  emit (PreventDefault event);;
  stopPropagation event;;
  let hasFiles := isEvtWithFiles event in
  when (hasFiles && hasTransfer event) (emit (SetDropEffectCopy event));;
  when (hasFiles && onDragOver props) (emit (CallOnDragOver event));;
  mret false.

(** [rootRef && rootRef.contains(target)] *)
Definition rootContains (root : option Node) (node : Node) : bool :=
  match root with
  | Some r => contains r node
  | None => false
  end.

Definition onDragLeaveCb (event : DomEvent) : M unit :=
  if negb (isEvtWithFiles event) then mret tt
  else
    tracked ← read dragTargets;
    if negb (includes tracked (target event)) then mret tt
    else
      emit (PreventDefault event);;
      stopPropagation event;;
      root ← read rootRef;
      let targets := List.filter (rootContains root) tracked in
      let targets :=
        match indexOf targets (target event) with
        | Some targetIdx => splice1 targetIdx targets
        | None => targets
        end in
      write (setDragTargets targets);;
      if nonEmpty targets then mret tt
      else
        resetDragState;;
        when (isEvtWithFiles event && onDragLeave props)
          (emit (CallOnDragLeave event)).

(** ['dataTransfer' in event] *)
Definition dataTransferIn (event : DomEvent) : bool :=
  match dataTransfer event with
  | NoDataTransfer => false
  | _ => true
  end.

(** [target.files] where [target.files?.length] is truthy. *)
Definition inputFilesOf (event : DomEvent) : option (list File) :=
  match target_files event with
  | Some (f :: fs) => Some (f :: fs)
  | _ => None
  end.

Definition onDropCb (event : DomEvent) : M unit :=
  match (if dataTransferIn event then None else inputFilesOf event) with
  | Some syncFiles =>
      emit (PreventDefault event);;
      stopPropagation event;;
      write (setDragTargets []);;
      setFiles syncFiles (Some event);;
      resetDragState
  | None =>
      emit (PreventDefault event);;
      stopPropagation event;;
      write (setDragTargets []);;
      when (isEvtWithFiles event)
        (match syncFilesOf event with
         | Some syncFiles => setFiles syncFiles (Some event)
         | None => mret tt
         end;;
         emit (GetFilesFromEvent event);;
         schedule (DropExtraction event));;
      resetDragState
  end.

(** The [.then] of [onDropCb]'s promise. *)
Definition onDropCb_then
    (event : DomEvent) (files : list File) (propagationStopped : bool) : M unit :=
  if propagationStopped && negb (noDragEventsBubbling props) then mret tt
  else setFiles files (Some event).

Definition onDocumentDrop (event : DomEvent) : M unit :=
  root ← read rootRef;
  if rootContains root (target event) then mret tt
  else
    emit (PreventDefault event);;
    write (setDragTargets []).

(** *** The file dialog *)

Definition NO_INPUT_ERROR : Error :=
  {| error_name := "Error";
     error_message :=
       "Cannot open the file picker because the File System Access API is not supported and no <input> was provided." |}.

Definition openFileDialog : M unit :=
  works ← read fsAccessApiWorks;
  if (works : bool) then
    write (setIsFileDialogActive true);;
    when (onFileDialogOpen props) (emit CallOnFileDialogOpen);;
    emit (ShowOpenFilePicker (multiple props));;
    schedule PickerPromise
  else
    input ← read inputRef;
    match input with
    | Some el =>
        write (setIsFileDialogActive true);;
        when (onFileDialogOpen props) (emit CallOnFileDialogOpen);;
        emit (InputSetValue el "");;
        emit (InputClick el)
    | None => mret tt
    end.

(** The last [.then] of the picker's chain. *)
Definition openFileDialog_then (files : list File) : M unit :=
  setFiles files None;;
  write (setIsFileDialogActive false).

(** The [.catch] of the picker's chain. *)
Definition openFileDialog_catch (e : Error) : M unit :=
  if isAbort e then
    when (onFileDialogCancel props) (emit CallOnFileDialogCancel);;
    write (setIsFileDialogActive false)
  else if isSecurityError e then
    write (setFsAccessApiWorks false);;
    input ← read inputRef;
    match input with
    | Some el =>
        emit (InputSetValue el "");;
        emit (InputClick el)
    | None => onErrCb NO_INPUT_ERROR
    end
  else onErrCb e.

Definition onWindowFocus : M unit :=
  works ← read fsAccessApiWorks;
  active ← read isFileDialogActive;
  when (negb works && active) (schedule FocusTimer).

(** The callback [onWindowFocus] hands to [setTimeout]; [files] is
    [inputRef.files] when the timer fires. *)
Definition onWindowFocus_timeout (files : option (list File)) : M unit :=
  input ← read inputRef;
  match input with
  | Some _ =>
      if negb (nonEmpty (default [] files)) then
        write (setIsFileDialogActive false);;
        when (onFileDialogCancel props) (emit CallOnFileDialogCancel)
      else mret tt
  | None => mret tt
  end.

(** *** Keyboard, focus and click *)

Definition onKeyDownCb (event : DomEvent) : M unit :=
  if cancelBubble event then mret tt
  else
    root ← read rootRef;
    match root with
    | Some r =>
        if negb (isEqualNode r (target event)) then mret tt
        else if (String.eqb (key event) " " || String.eqb (key event) "Enter"
                 || (keyCode event =? 32) || (keyCode event =? 13))%bool then
          emit (PreventDefault event);;
          openFileDialog
        else mret tt
    | None => mret tt
    end.

Definition onFocusCb (event : DomEvent) : M unit :=
  if cancelBubble event then mret tt
  else write (setIsFocused true).

Definition onBlurCb (event : DomEvent) : M unit :=
  if cancelBubble event then mret tt
  else write (setIsFocused false).

Definition onClickCb (event : DomEvent) : M unit :=
  if cancelBubble event then mret tt
  else
    called ← read openCalledInThisTick;
    if noClick props || called then mret tt
    else if isIeOrEdge then
      input ← read inputRef;
      match input with
      | Some el => emit (InputClick el)
      | None => mret tt
      end
    else schedule OpenDialogTimer.

Definition onInputElementClick (event : DomEvent) : M unit :=
  emit (StopPropagation event).

Definition open : M unit :=
  when (negb (disabled props))
    (write (setOpenCalledInThisTick true);;
     openFileDialog;;
     schedule ResetOpenFlagTimer).

(** *** The event loop

    What a pending task runs when it comes back with an outcome; [None]
    when the outcome is not one the task can have. *)
Definition continuation (t : Task) (o : Outcome) : option (M unit) :=
  match t, o with
  | EnterExtraction event, Fulfilled files stopped =>
      Some (onDragEnterCb_then event files stopped)
  | EnterExtraction _, Rejected e => Some (onErrCb e)
  | DropExtraction event, Fulfilled files stopped =>
      Some (onDropCb_then event files stopped)
  | DropExtraction _, Rejected e => Some (onErrCb e)
  | PickerPromise, Fulfilled files _ => Some (openFileDialog_then files)
  | PickerPromise, Rejected e => Some (openFileDialog_catch e)
  | FocusTimer, Fired files => Some (onWindowFocus_timeout files)
  | OpenDialogTimer, Fired _ => Some openFileDialog
  | ResetOpenFlagTimer, Fired _ => Some (write (setOpenCalledInThisTick false))
  | _, _ => None
  end.

(** A task comes back only if it is pending, and then it leaves the queue. *)
Definition settle (t : Task) (o : Outcome) : M unit :=
  queue ← read pending;
  match continuation t o, list_find (fun t' => t' = t) queue with
  | Some k, Some (i, _) =>
      write (setPending (delete i queue));;
      k
  | _, _ => mret tt
  end.

(** What can happen to an instance. *)
Inductive Input :=
| DragEnter (event : DomEvent)
| DragOver (event : DomEvent)
| DragLeave (event : DomEvent)
| Drop (event : DomEvent)
| DocumentDrop (event : DomEvent)
| KeyDown (event : DomEvent)
| Focus (event : DomEvent)
| Blur (event : DomEvent)
| Click (event : DomEvent)
| InputElementClick (event : DomEvent)
| WindowFocus
| Open
| BindRoot (el : Node)
| BindInput (el : Node)
| Settle (t : Task) (o : Outcome).

Definition handle (i : Input) : M unit :=
  match i with
  | DragEnter event => onDragEnterCb event
  | DragOver event => onDragOverCb event;; mret tt
  | DragLeave event => onDragLeaveCb event
  | Drop event => onDropCb event
  | DocumentDrop event => onDocumentDrop event
  | KeyDown event => onKeyDownCb event
  | Focus event => onFocusCb event
  | Blur event => onBlurCb event
  | Click event => onClickCb event
  | InputElementClick event => onInputElementClick event
  | WindowFocus => onWindowFocus
  | Open => open
  | BindRoot el => write (setRootRef (Some el))
  | BindInput el => write (setInputRef (Some el))
  | Settle t o => settle t o
  end.

(** *** The prop getters *)

Definition Handler := DomEvent -> M unit.

Definition composeHandler (fn : Handler) : option Handler :=
  if disabled props then None else Some fn.

Definition composeKeyboardHandler (fn : Handler) : option Handler :=
  if noKeyboard props then None else composeHandler fn.

Definition composeDragHandler (fn : Handler) : option Handler :=
  if noDrag props then None
  else if noDragEventsBubbling props then
    Some (fun event => emit (StopPropagation event);; fn event)
  else composeHandler fn.

(** Modelled from the spec: [composeEventHandlers] of [./utils], which
    chains the caller's handler for an event with the hook's own, the
    caller's first. *)
Definition composeEventHandlers (user : option Handler) (own : Handler) : Handler :=
  fun event =>
    match user with
    | Some fn => fn event;; own event
    | None => own event
    end.

(** A callback prop as a handler. *)
Definition callback (supplied : bool) (call : DomEvent -> Effect) : option Handler :=
  if supplied then Some (fun event => emit (call event)) else None.

(** The handlers and the tab stop of the two bundles.  The same records hold
    what a caller passes to a getter: a handler for a slot, and a [tabIndex]
    of its own among the rest props ([None] when it passes none). *)
Record RootHandlers := {
  root_onKeyDown : option Handler;
  root_onFocus : option Handler;
  root_onBlur : option Handler;
  root_onClick : option Handler;
  root_onDragEnter : option Handler;
  root_onDragOver : option Handler;
  root_onDragLeave : option Handler;
  root_onDrop : option Handler;
  root_tabIndex : option Z;
}.

Record InputHandlers := {
  input_onChange : option Handler;
  input_onClick : option Handler;
  input_tabIndex : option Z;
}.

Definition getRootProps (user : RootHandlers) : RootHandlers :=
  {| root_onKeyDown :=
       composeKeyboardHandler (composeEventHandlers (root_onKeyDown user) onKeyDownCb);
     root_onFocus :=
       composeKeyboardHandler (composeEventHandlers (root_onFocus user) onFocusCb);
     root_onBlur :=
       composeKeyboardHandler (composeEventHandlers (root_onBlur user) onBlurCb);
     root_onClick :=
       composeHandler (composeEventHandlers (root_onClick user) onClickCb);
     root_onDragEnter :=
       composeDragHandler
         (composeEventHandlers (callback (onDragEnter props) CallOnDragEnter)
            (composeEventHandlers (root_onDragEnter user) onDragEnterCb));
     root_onDragOver :=
       composeDragHandler
         (composeEventHandlers (callback (onDragOver props) CallOnDragOver)
            (composeEventHandlers (root_onDragOver user)
               (fun event => onDragOverCb event;; mret tt)));
     root_onDragLeave :=
       composeDragHandler
         (composeEventHandlers (callback (onDragLeave props) CallOnDragLeave)
            (composeEventHandlers (root_onDragLeave user) onDragLeaveCb));
     root_onDrop :=
       composeDragHandler
         (composeEventHandlers (callback (onDrop props) CallOnDropAsHandler)
            (composeEventHandlers (root_onDrop user) onDropCb));
     root_tabIndex :=
       match root_tabIndex user with
       | Some index => Some index
       | None =>
           if negb (disabled props) && negb (noKeyboard props) then Some 0 else None
       end |}.

Definition getInputProps (user : InputHandlers) : InputHandlers :=
  {| input_onChange :=
       composeHandler (composeEventHandlers (input_onChange user) onDropCb);
     input_onClick :=
       composeHandler (composeEventHandlers (input_onClick user) onInputElementClick);
     input_tabIndex :=
       match input_tabIndex user with
       | Some index => Some index
       | None => Some (-1)
       end |}.

(** A getter called without overrides. *)
Definition noRootOverrides : RootHandlers :=
  {| root_onKeyDown := None; root_onFocus := None; root_onBlur := None;
     root_onClick := None; root_onDragEnter := None; root_onDragOver := None;
     root_onDragLeave := None; root_onDrop := None; root_tabIndex := None |}.

Definition noInputOverrides : InputHandlers :=
  {| input_onChange := None; input_onClick := None; input_tabIndex := None |}.

(** Dispatching an event to a slot of a bundle: nothing listens when the
    slot is [undefined]. *)
Definition dispatch (slot : option Handler) (event : DomEvent) : M unit :=
  match slot with
  | Some fn => fn event
  | None => mret tt
  end.

End Hook.

(** ** An instance of the hook *)

(** The closure as [useDropzone] creates it. *)
Definition initialState {env : Env} (props : Props) : State :=
  {| isFocused := false; isFileDialogActive := false; isDragActive := false;
     isDragAccept := false; isDragReject := false; acceptedFiles := [];
     fileRejections := []; rootRef := None; inputRef := None;
     openCalledInThisTick := false; dragTargets := [];
     fsAccessApiWorks :=
       isSecureContext && useFsAccessApi props && canUseFileSystemAccessAPI;
     pending := [] |}.

(** The object [useDropzone] returns (lines 684 to 697).  A field that holds
    a function reads the props and the closure when it is called; a field
    that holds a value was computed when the object was built. *)
Record DropzoneHookResult := {
  result_isFocused : Props -> State -> bool;
  result_isFileDialogActive : bool;
  result_isDragActive : State -> bool;
  result_isDragAccept : State -> bool;
  result_isDragReject : State -> bool;
  result_acceptedFiles : State -> list File;
  result_fileRejections : State -> list FileRejection;
  result_rootRef : option Node;
  result_inputRef : option Node;
}.

Definition useDropzone {env : Env} (props : Props) : State * DropzoneHookResult :=
  let s0 := initialState props in
  (s0,
   {| result_isFocused := fun props s => isFocused s && negb (disabled props);
      result_isFileDialogActive := isFileDialogActive s0;
      result_isDragActive := isDragActive;
      result_isDragAccept := isDragAccept;
      result_isDragReject := isDragReject;
      result_acceptedFiles := acceptedFiles;
      result_fileRejections := fileRejections;
      result_rootRef := rootRef s0;
      result_inputRef := inputRef s0 |}).

(** A run: each input is handled under the props of its moment. *)
Fixpoint run {env : Env} (steps : list (Props * Input)) : M unit :=
  match steps with
  | [] => mret tt
  | (props, i) :: rest => handle props i;; run rest
  end.

(** The same inputs under props that do not change. *)
Definition under (props : Props) (inputs : list Input) : list (Props * Input) :=
  map (pair props) inputs.



(** A handler keeps an invariant of the closure. *)
Definition preserves {A} (I : State -> Prop) (m : M A) : Prop :=
  forall s, I s -> I (state_after m s).

(** The modern-picker strategy is on, or off. *)
Definition pickerOn (s : State) : Prop := fsAccessApiWorks s = true.
Definition pickerOff (s : State) : Prop := fsAccessApiWorks s = false.

(** The three drag flags. *)
Definition dragFlags (s : State) : bool * bool * bool :=
  (isDragActive s, isDragAccept s, isDragReject s).

(** The steps of a run at which the picker flag goes from [true] to [false]. *)
Fixpoint downgrades {env : Env} (steps : list (Props * Input)) (s : State) : nat :=
  match steps with
  | [] => 0
  | (props, i) :: rest =>
      let s' := state_after (handle props i) s in
      ((if fsAccessApiWorks s && negb (fsAccessApiWorks s') then 1 else 0)
       + downgrades rest s')%nat
  end.

(** ** The effects that mirror props into the DOM *)

(** What such an effect does to an element. *)
Inductive DomWrite :=
| SetAttribute (el : Node) (name value : string)
| RemoveAttribute (el : Node) (name : string).

(** The first [createEffect] (lines 112 to 121): the root's [tabindex]. *)
Definition tabindexEffect (props : Props) (s : State) : list DomWrite :=
  match rootRef s with
  | None => []
  | Some root =>
      if negb (disabled props) && negb (noKeyboard props)
      then [SetAttribute root "tabindex" "0"]
      else [RemoveAttribute root "tabindex"]
  end.

(** ** Reading the pipeline and the logs *)

(** The test of line 340: the file passes the type check, the size check
    and the validator. *)
Definition passes {env : Env} (props : Props) (file : File) : bool :=
  (fileAccepted file (acceptAttr props)).1
  && (fileMatchSize file (minSize props) (maxSize props)).1
  && negb (truthy (match validator props with
                   | Some validate => validate file
                   | None => VNull
                   end)).

(** A call to [window.showOpenFilePicker]. *)
Definition isPickerCall (e : Effect) : bool :=
  match e with
  | ShowOpenFilePicker _ => true
  | _ => false
  end.

Definition noPickerCall (e : Effect) : Prop := isPickerCall e = false.

(** A call to one of the three drop callbacks. *)
Definition isDropCall (e : Effect) : bool :=
  match e with
  | CallOnDrop _ _ _ => true
  | CallOnDropRejected _ _ => true
  | CallOnDropAccepted _ _ => true
  | _ => false
  end.

(** A handler keeps an invariant and logs only effects that satisfy [Q]. *)
Definition quiet {A} (I : State -> Prop) (Q : Effect -> Prop) (m : M A) : Prop :=
  forall s, I s -> I (state_after m s) /\ Forall Q (log_of m s).

(** ** The zone as the page drives it

    An event reaches the hook through a slot of the bundle the root element
    carries; a pending task comes back to the hook directly. *)
Inductive ZoneInput :=
| ToRoot (slot : RootHandlers -> option Handler) (event : DomEvent)
| Back (t : Task) (o : Outcome).

Definition zoneHandle {env : Env} (props : Props) (user : RootHandlers)
    (z : ZoneInput) : M unit :=
  match z with
  | ToRoot slot event => dispatch (slot (getRootProps props user)) event
  | Back t o => settle props t o
  end.




(** What runs in front of the hook's own handler when a drag event is
    dispatched to its slot with no caller override: the wrapper's
    [stopPropagation] under bubbling suppression, then the callback prop. *)
Definition inFront (props : Props) (supplied : bool) (call : DomEvent -> Effect)
    (event : DomEvent) : list Effect :=
  (if noDragEventsBubbling props then [StopPropagation event] else [])
  ++ (if supplied then [call event] else []).

(** ** Sample data

    An environment and a few files to evaluate the handlers on.  The two
    file predicates follow the tests: a type mismatch is
    [file-invalid-type], a size outside the bounds is [file-too-large] or
    [file-too-small]. *)
Module Sample.

Definition pdf : File :=
  {| file_name := "file1.pdf"; file_size := 1111; file_type := "application/pdf" |}.

Definition cats : File :=
  {| file_name := "cats.gif"; file_size := 1234; file_type := "image/gif" |}.

Definition dogs : File :=
  {| file_name := "dogs.gif"; file_size := 2345; file_type := "image/jpeg" |}.

Definition typeMatches (f : File) (accept : option string) : bool :=
  match accept with
  | None => true
  | Some "image/*" => String.prefix "image/" (file_type f)
  | Some t => String.eqb t (file_type f)
  end.

Definition sizeError (f : File) (min : Z) (max : Size) : option FileError :=
  match max with
  | Bytes m =>
      if m <? file_size f then
        Some {| code := "file-too-large"; message := "File is too large" |}
      else if file_size f <? min then
        Some {| code := "file-too-small"; message := "File is too small" |}
      else None
  | Infinity =>
      if file_size f <? min then
        Some {| code := "file-too-small"; message := "File is too small" |}
      else None
  end.

Definition env : Env :=
  {| fileAccepted f accept :=
       if typeMatches f accept then (true, None)
       else (false, Some {| code := "file-invalid-type";
                            message := "File type must be " ++ default "" accept |});
     fileMatchSize f min max :=
       match sizeError f min max with
       | Some e => (false, Some e)
       | None => (true, None)
       end;
     allFilesAccepted files accept min max multiple maxFiles validate :=
       forallb (fun f =>
         typeMatches f accept
         && negb (bool_decide (is_Some (sizeError f min max)))
         && negb (truthy (from_option (fun v => v f) VNull validate))) files
       && (if multiple then (maxFiles <? 1) || (Z.of_nat (length files) <=? maxFiles)
           else Z.of_nat (length files) <=? 1);
     isEvtWithFiles event :=
       match dataTransfer event with
       | DataTransfer _ => true
       | NullDataTransfer => false
       | NoDataTransfer => bool_decide (is_Some (target_files event))
       end;
     isAbort e := String.eqb (error_name e) "AbortError";
     isSecurityError e := String.eqb (error_name e) "SecurityError";
     isIeOrEdge := false;
     isSecureContext := true;
     canUseFileSystemAccessAPI := true;
     contains root node := Nat.leb root node;
     isEqualNode a b := Nat.eqb a b |}.

(** The root is node 1, and every node numbered from 1 on is inside it; the
    input is node 2. *)
Definition root : Node := 1%nat.
Definition input : Node := 2%nat.
Definition child : Node := 3%nat.

(** A drag event over [node] that carries [files]. *)
Definition dragEvent (node : Node) (files : list File) : DomEvent :=
  {| target := node; dataTransfer := DataTransfer files; target_files := None;
     cancelBubble := false; key := ""; keyCode := 0;
     hasStopImmediatePropagation := true |}.


(** An event without a transfer (focus, blur, click, key). *)
Definition plainEvent (node : Node) : DomEvent :=
  {| target := node; dataTransfer := NoDataTransfer; target_files := None;
     cancelBubble := false; key := ""; keyCode := 0;
     hasStopImmediatePropagation := true |}.

(** Props with every callback supplied, and defaults in the fields that
    are not arguments. *)
Definition listening
    (accept : option string) (multiple : bool) (maxFiles : Z)
    (validator : option (File -> ValidatorResult))
    (disabled noDragEventsBubbling useFsAccessApi : bool) : Props :=
  {| acceptAttr := accept; disabled := disabled; maxSize := Infinity; minSize := 0;
     multiple := multiple; maxFiles := maxFiles;
     onDragEnter := true; onDragLeave := true; onDragOver := true;
     onDrop := true; onDropAccepted := true; onDropRejected := true;
     onFileDialogCancel := true; onFileDialogOpen := true;
     useFsAccessApi := useFsAccessApi; autoFocus := false;
     preventDropOnDocument := true;
     noClick := false; noKeyboard := false; noDrag := false;
     noDragEventsBubbling := noDragEventsBubbling; onError := true;
     validator := validator |}.

(** The defaults. *)
Definition plain : Props := listening None true 0 None false false false.

End Sample.

(** * Properties *)

(** ** Running a handler *)

Lemma exec_bind {A B} (m : M A) (f : A -> M B) (s : State) :
  exec (m ≫= f) s =
  let '(a, s1, l1) := m s in
  let '(s2, l2) := exec (f a) s1 in
  (s2, l1 ++ l2).
Proof.
  unfold exec, mbind, M_bind.
  destruct (m s) as [[a s1] l1]. destruct (f a s1) as [[b s2] l2]. reflexivity.
Qed.

Lemma state_after_bind {A B} (m : M A) (f : A -> M B) (s : State) :
  state_after (m ≫= f) s = state_after (f (m s).1.1) (state_after m s).
Proof.
  unfold state_after. rewrite exec_bind. unfold exec.
  destruct (m s) as [[a s1] l1]. simpl. destruct (f a s1) as [[b s2] l2]. reflexivity.
Qed.

Lemma log_of_bind {A B} (m : M A) (f : A -> M B) (s : State) :
  log_of (m ≫= f) s = log_of m s ++ log_of (f (m s).1.1) (state_after m s).
Proof.
  unfold log_of, state_after. rewrite exec_bind. unfold exec.
  destruct (m s) as [[a s1] l1]. simpl. destruct (f a s1) as [[b s2] l2]. reflexivity.
Qed.

(** Unfold the monad on a handler whose control flow is explicit. *)
Ltac step_handler :=
  unfold state_after, log_of, exec, when, schedule, write, read, emit,
    mbind, M_bind, mret, M_ret in *;
  cbv beta iota zeta in *; cbn [fst snd] in *.

(** ** The filtering pipeline *)

Section Pipeline.

Context {env : Env}.
Variable props : Props.

Lemma foldl_pushTooMany (accepted : list File) (rejections : list FileRejection) :
  foldl pushTooMany rejections accepted =
  rejections ++
    map (fun f => {| file := f; errors := [TOO_MANY_FILES_REJECTION] |}) accepted.
Proof.
  revert rejections.
  induction accepted as [|f accepted IH]; intros rejections; simpl.
  - by rewrite app_nil_r.
  - rewrite IH. unfold pushTooMany. by rewrite <- app_assoc.
Qed.

(** The signals [setFiles] leaves are the two filtered arrays. *)
Lemma setFiles_state (files : list File) (event : option DomEvent) (s : State) :
  state_after (setFiles props files event) s =
  setIsDragReject (nonEmpty (filteredFiles props files).2)
    (setFileRejections (filteredFiles props files).2
       (setAcceptedFiles (filteredFiles props files).1 s)).
Proof.
  unfold setFiles.
  destruct (filteredFiles props files) as [accepted rejected].
  destruct event as [event|]; step_handler;
    destruct (onDrop props), (nonEmpty rejected), (onDropRejected props),
      (nonEmpty accepted), (onDropAccepted props); reflexivity.
Qed.

(** The calls [setFiles] makes. *)
Lemma setFiles_log (files : list File) (event : option DomEvent) (s : State) :
  log_of (setFiles props files event) s =
  match event with
  | None => []
  | Some ev =>
      (if onDrop props
       then [CallOnDrop (filteredFiles props files).1 (filteredFiles props files).2 ev]
       else [])
      ++ (if nonEmpty (filteredFiles props files).2 && onDropRejected props
          then [CallOnDropRejected (filteredFiles props files).2 ev] else [])
      ++ (if nonEmpty (filteredFiles props files).1 && onDropAccepted props
          then [CallOnDropAccepted (filteredFiles props files).1 ev] else [])
  end.
Proof.
  unfold setFiles.
  destruct (filteredFiles props files) as [accepted rejected].
  destruct event as [event|]; step_handler;
    destruct (onDrop props), (nonEmpty rejected), (onDropRejected props),
      (nonEmpty accepted), (onDropAccepted props); reflexivity.
Qed.

Lemma tooManyFiles_spec (accepted : list File) :
  tooManyFiles props accepted = true <->
  (multiple props = false /\ (1 < length accepted)%nat)
  \/ (multiple props = true /\ 1 <= maxFiles props
      /\ maxFiles props < Z.of_nat (length accepted)).
Proof.
  unfold tooManyFiles.
  destruct (multiple props); simpl.
  - rewrite andb_true_iff, Z.ltb_lt, Z.leb_le. split.
    + intros [? ?]. right. auto.
    + intros [[? _]|(_ & ? & ?)]; [discriminate | auto].
  - rewrite orb_false_r, Z.ltb_lt. split.
    + intros ?. left. split; [reflexivity | lia].
    + intros [[_ ?]|[? _]]; [lia | discriminate].
Qed.

End Pipeline.

(** C1. After the per-file step, if [multiple] is false and more than one
    file was accepted, or [multiple] is true, [maxFiles >= 1] and more than
    [maxFiles] files were accepted, then [setFiles] publishes an empty
    accepted list and a rejected list made of the per-file rejections,
    unchanged and in their order, followed by one rejection per accepted
    file whose only error is [too-many-files].  So the accepted count never
    exceeds 1 when [multiple] is false and never exceeds [maxFiles] when
    [multiple] is true and [maxFiles >= 1]. *)
Theorem setFiles_too_many_files
    {env : Env} (props : Props) (files : list File) (event : option DomEvent)
    (s : State) :
  let accepted0 := (perFile props files).1 in
  let rejected0 := (perFile props files).2 in
  let s' := state_after (setFiles props files event) s in
  ((multiple props = false /\ (1 < length accepted0)%nat)
   \/ (multiple props = true /\ 1 <= maxFiles props
       /\ maxFiles props < Z.of_nat (length accepted0)) ->
   acceptedFiles s' = []
   /\ fileRejections s' =
      rejected0 ++
        map (fun f => {| file := f; errors := [TOO_MANY_FILES_REJECTION] |}) accepted0
   /\ code TOO_MANY_FILES_REJECTION = "too-many-files")
  /\ (multiple props = false -> (length (acceptedFiles s') <= 1)%nat)
  /\ (multiple props = true -> 1 <= maxFiles props ->
      Z.of_nat (length (acceptedFiles s')) <= maxFiles props).
Proof.
  intros accepted0 rejected0 s'. subst s'.
  rewrite setFiles_state. cbn [acceptedFiles fileRejections setIsDragReject
    setFileRejections setAcceptedFiles].
  unfold filteredFiles. subst accepted0 rejected0.
  destruct (perFile props files) as [accepted rejected]. cbn [fst snd].
  destruct (tooManyFiles props accepted) eqn:Hguard; cbn [fst snd].
  - repeat split; try (simpl; lia).
    apply foldl_pushTooMany.
  - assert (Hno : ~ ((multiple props = false /\ (1 < length accepted)%nat)
                     \/ (multiple props = true /\ 1 <= maxFiles props
                         /\ maxFiles props < Z.of_nat (length accepted)))).
    { rewrite <- tooManyFiles_spec. congruence. }
    split; [intros Hyes; contradiction|].
    split.
    + intros Hm. destruct (le_lt_dec (length accepted) 1) as [?|Hlt]; [assumption|].
      exfalso. apply Hno. left. split; [assumption | lia].
    + intros Hm Hmax.
      destruct (Z_le_gt_dec (Z.of_nat (length accepted)) (maxFiles props)) as [?|Hgt];
        [assumption|].
      exfalso. apply Hno. right. repeat split; [assumption .. | lia].
Qed.

(** Two images dropped on a single-file zone: both pass the per-file step,
    and both end up rejected. *)
Lemma setFiles_too_many_files_witness :
  acceptedFiles
    (state_after
       (setFiles (env:=Sample.env) (Sample.listening None false 0 None false false false)
          [Sample.cats; Sample.dogs] None)
       (initialState (env:=Sample.env) Sample.plain)) = []
  /\ fileRejections
       (state_after
          (setFiles (env:=Sample.env) (Sample.listening None false 0 None false false false)
             [Sample.cats; Sample.dogs] None)
          (initialState (env:=Sample.env) Sample.plain)) =
     [{| file := Sample.cats; errors := [TOO_MANY_FILES_REJECTION] |};
      {| file := Sample.dogs; errors := [TOO_MANY_FILES_REJECTION] |}].
Proof.
  destruct (setFiles_too_many_files (env:=Sample.env)
              (Sample.listening None false 0 None false false false)
              [Sample.cats; Sample.dogs] None
              (initialState (env:=Sample.env) Sample.plain)) as [Hguard _].
  destruct Hguard as (Hacc & Hrej & _).
  - left. split; [reflexivity | vm_compute; lia].
  - split; [exact Hacc | exact Hrej].
Defined.

(** C3. With no originating event [setFiles] calls none of [onDrop],
    [onDropRejected], [onDropAccepted].  With an event it calls, in this
    order and nothing else: [onDrop(accepted, rejected, event)] whenever the
    callback is supplied; [onDropRejected(rejected, event)] exactly when the
    rejected list is not empty (and the callback is supplied);
    [onDropAccepted(accepted, event)] exactly when the accepted list is not
    empty (and the callback is supplied).  The lists are the ones the
    signals receive. *)
Theorem setFiles_callbacks
    {env : Env} (props : Props) (files : list File) (event : option DomEvent)
    (s : State) :
  let s' := state_after (setFiles props files event) s in
  let accepted := acceptedFiles s' in
  let rejected := fileRejections s' in
  log_of (setFiles props files event) s =
  match event with
  | None => []
  | Some ev =>
      (if onDrop props then [CallOnDrop accepted rejected ev] else [])
      ++ (if onDropRejected props
          then match rejected with
               | [] => []
               | _ :: _ => [CallOnDropRejected rejected ev]
               end
          else [])
      ++ (if onDropAccepted props
          then match accepted with
               | [] => []
               | _ :: _ => [CallOnDropAccepted accepted ev]
               end
          else [])
  end.
Proof.
  intros s' accepted rejected. subst accepted rejected s'.
  rewrite setFiles_log, setFiles_state.
  cbn [acceptedFiles fileRejections setIsDragReject setFileRejections setAcceptedFiles].
  destruct event as [ev|]; [|reflexivity].
  destruct (filteredFiles props files) as [[|a accepted] [|r rejected]]; cbn [fst snd nonEmpty];
    destruct (onDrop props), (onDropRejected props), (onDropAccepted props); reflexivity.
Qed.

(** C2, at the input where the code departs from it: a validator that
    answers with an empty array.  The array is truthy, so a file that passes
    the type and size checks is not accepted, and the rejection it gets has
    no error at all. *)
Lemma setFiles_rejection_without_errors :
  filteredFiles (env:=Sample.env)
    (Sample.listening None true 0 (Some (fun _ => VErrors [])) false false false)
    [Sample.pdf]
  = ([], [{| file := Sample.pdf; errors := [] |}]).
Proof. reflexivity. Qed.

(** ** Runs *)

Section Runs.

Context {env : Env}.

Lemma state_after_run_cons (props : Props) (i : Input) (rest : list (Props * Input))
    (s : State) :
  state_after (run ((props, i) :: rest)) s =
  state_after (run rest) (state_after (handle props i) s).
Proof. cbn [run]. by rewrite state_after_bind. Qed.




Lemma exec_pair {A} (m : M A) (s : State) :
  exec m s = (state_after m s, log_of m s).
Proof. unfold state_after, log_of. by destruct (exec m s). Qed.

End Runs.

(** ** Tracking the drag targets *)

Section Tracking.

Context {env : Env}.
Variable props : Props.


(** Entering pushes the target, whatever the event carries. *)
Lemma onDragEnterCb_tracks (e : DomEvent) (s : State) :
  dragTargets (state_after (onDragEnterCb props e) s) = dragTargets s ++ [target e]
  /\ rootRef (state_after (onDragEnterCb props e) s) = rootRef s.
Proof.
  unfold onDragEnterCb, stopPropagation. step_handler.
  destruct (noDragEventsBubbling props), (hasStopImmediatePropagation e),
    (syncFilesOf e), (onDragEnter props), (isEvtWithFiles e); split; reflexivity.
Qed.

Lemma onDragEnterCb_sync_active (e : DomEvent) (s : State) :
  syncFilesOf e <> None ->
  isDragActive (state_after (onDragEnterCb props e) s) = true.
Proof.
  intros Hsync. unfold onDragEnterCb, stopPropagation. step_handler.
  destruct (syncFilesOf e); [|congruence].
  destruct (noDragEventsBubbling props), (hasStopImmediatePropagation e),
    (onDragEnter props); reflexivity.
Qed.

Lemma enters_track (enters : list DomEvent) (s : State) :
  dragTargets (state_after (run (under props (map DragEnter enters))) s) =
    dragTargets s ++ map target enters
  /\ rootRef (state_after (run (under props (map DragEnter enters))) s) = rootRef s.
Proof.
  revert s. induction enters as [|e enters IH]; intros s.
  - cbn. by rewrite app_nil_r.
  - cbn [map under]. rewrite state_after_run_cons. cbn [handle].
    destruct (IH (state_after (onDragEnterCb props e) s)) as [IHt IHr].
    destruct (onDragEnterCb_tracks e s) as [Ht Hr].
    unfold under in *. rewrite IHt, IHr, Ht, Hr. split; [|reflexivity].
    by rewrite <- app_assoc.
Qed.

Lemma enters_sync_active (enters : list DomEvent) (s : State) :
  enters <> [] ->
  Forall (fun e => syncFilesOf e <> None) enters ->
  isDragActive (state_after (run (under props (map DragEnter enters))) s) = true.
Proof.
  revert s. induction enters as [|e enters IH]; intros s Hne Hall; [congruence|].
  cbn [map under]. rewrite state_after_run_cons. cbn [handle].
  inversion Hall as [|? ? He Hrest]; subst.
  destruct enters as [|e' enters'].
  - cbn. by apply onDragEnterCb_sync_active.
  - apply IH; [congruence | assumption].
Qed.

(** A leave whose target is not tracked does nothing at all. *)
Lemma onDragLeaveCb_untracked (e : DomEvent) (s : State) :
  target e ∉ dragTargets s ->
  exec (onDragLeaveCb props e) s = (s, []).
Proof.
  intros Hnot. unfold onDragLeaveCb. destruct (isEvtWithFiles e); [|reflexivity].
  cbn [negb]. step_handler. unfold includes.
  rewrite bool_decide_eq_false_2 by assumption. reflexivity.
Qed.

Variables (root x : Node).
Hypothesis x_inside : contains root x = true.







End Tracking.

(** ** Drop *)

Section Dropping.

Context {env : Env}.
Variable props : Props.

Lemma stopPropagation_exec (event : DomEvent) (s : State) :
  state_after (stopPropagation props event) s = s.
Proof.
  unfold stopPropagation. step_handler.
  by destruct (noDragEventsBubbling props), (hasStopImmediatePropagation event).
Qed.

(** What [setFiles] does not touch. *)
Lemma setFiles_frame (files : list File) (event : option DomEvent) (s : State) :
  let s' := state_after (setFiles props files event) s in
  isDragActive s' = isDragActive s
  /\ isDragAccept s' = isDragAccept s
  /\ isDragReject s' = nonEmpty (filteredFiles props files).2
  /\ pending s' = pending s
  /\ fsAccessApiWorks s' = fsAccessApiWorks s
  /\ isFocused s' = isFocused s
  /\ isFileDialogActive s' = isFileDialogActive s.
Proof. cbv zeta. rewrite setFiles_state. cbn. auto 10. Qed.

Lemma onDropCb_resets (event : DomEvent) (s : State) :
  dragFlags (state_after (onDropCb props event) s) = (false, false, false)
  /\ dragTargets (state_after (onDropCb props event) s) = [].
Proof.
  unfold onDropCb, resetDragState.
  destruct (if dataTransferIn event then None else inputFilesOf event) as [files|];
    rewrite !state_after_bind; cbn.
  - rewrite setFiles_state. cbn. auto.
  - split; [reflexivity|].
    destruct (isEvtWithFiles event); cbn [when]; [|by cbn].
    rewrite !state_after_bind.
    change (state_after (schedule ?t) ?s) with (setPending (pending s ++ [t]) s).
    change (state_after (emit ?e) ?s) with s.
    destruct (syncFilesOf event) as [files|]; [rewrite setFiles_state|]; by cbn.
Qed.

(** The extraction [onDropCb] leaves pending. *)
Lemma onDropCb_pending (event : DomEvent) (s : State) :
  pending (state_after (onDropCb props event) s) =
  match (if dataTransferIn event then None else inputFilesOf event) with
  | Some _ => pending s
  | None =>
      if isEvtWithFiles event then pending s ++ [DropExtraction event] else pending s
  end.
Proof.
  unfold onDropCb, resetDragState.
  destruct (if dataTransferIn event then None else inputFilesOf event) as [files|];
    rewrite !state_after_bind; cbn.
  - rewrite setFiles_state. cbn. by rewrite stopPropagation_exec.
  - destruct (isEvtWithFiles event); cbn [when];
      [|cbn; by rewrite stopPropagation_exec].
    rewrite !state_after_bind.
    change (state_after (schedule ?t) ?s) with (setPending (pending s ++ [t]) s).
    change (state_after (emit ?e) ?s) with s.
    destruct (syncFilesOf event) as [files|]; [rewrite setFiles_state|];
      cbn; by rewrite stopPropagation_exec.
Qed.

End Dropping.

(** C5, as the code has it.  When [onDropCb] returns, the three drag flags
    are false and no target is tracked, on every path.  A file-carrying drop
    that is not an input change with files also leaves an extraction
    pending; when that extraction is fulfilled, its continuation runs the
    pipeline again, which leaves drag-active and drag-accept as they are and
    sets drag-reject to whether a file was rejected (nothing changes when
    the continuation is swallowed because propagation was stopped and
    bubbling suppression is off). *)
Theorem drop_resets_drag_flags
    {env : Env} (props : Props) (event : DomEvent) (s : State) :
  let dropped := state_after (onDropCb props event) s in
  dragFlags dropped = (false, false, false)
  /\ dragTargets dropped = []
  /\ pending dropped =
     match (if dataTransferIn event then None else inputFilesOf event) with
     | Some _ => pending s
     | None =>
         if isEvtWithFiles event then pending s ++ [DropExtraction event] else pending s
     end
  /\ forall (st : State) (files : list File) (propagationStopped : bool),
       let settled := state_after (onDropCb_then props event files propagationStopped) st in
       isDragActive settled = isDragActive st
       /\ isDragAccept settled = isDragAccept st
       /\ isDragReject settled =
          if propagationStopped && negb (noDragEventsBubbling props)
          then isDragReject st
          else nonEmpty (filteredFiles props files).2.
Proof.
  cbv zeta. destruct (onDropCb_resets props event s) as [Hflags Htargets].
  split; [exact Hflags|]. split; [exact Htargets|].
  split; [apply onDropCb_pending|].
  intros st files stopped. unfold onDropCb_then.
  destruct (stopped && negb (noDragEventsBubbling props)); [by cbn|].
  destruct (setFiles_frame props files (Some event) st) as (Ha & Hb & Hc & _).
  auto.
Qed.

(** C5 as stated fails: a pdf dropped on a zone that accepts images.  The
    handler resets the flags, then the extraction comes back with the file,
    the pipeline rejects it, and drag-reject is true once the drop has been
    handled. *)
Lemma drop_leaves_drag_reject_set :
  isDragReject
    (state_after
       (run (env:=Sample.env)
          (under (Sample.listening (Some "image/*") true 0 None false false false)
             [Drop (Sample.dragEvent Sample.root [Sample.pdf]);
              Settle (DropExtraction (Sample.dragEvent Sample.root [Sample.pdf]))
                (Fulfilled [Sample.pdf] false)]))
       (initialState (env:=Sample.env)
          (Sample.listening (Some "image/*") true 0 None false false false)))
  = true.
Proof. vm_compute. reflexivity. Qed.

(** ** The prop getters *)

(** C6, at the input where the code departs from it: a disabled zone with
    bubbling suppression.  [composeDragHandler] wraps the handler before it
    looks at [disabled], so the four drag slots of the root bundle are
    filled, and a drag-enter dispatched to the disabled zone stops the
    propagation, calls [onDragEnter] and raises the drag flags. *)
Lemma disabled_drag_handlers_present :
  root_onDragEnter
    (getRootProps (env:=Sample.env)
       (Sample.listening None true 0 None true true false) noRootOverrides) <> None
  /\ root_onDragOver
       (getRootProps (env:=Sample.env)
          (Sample.listening None true 0 None true true false) noRootOverrides) <> None
  /\ root_onDragLeave
       (getRootProps (env:=Sample.env)
          (Sample.listening None true 0 None true true false) noRootOverrides) <> None
  /\ root_onDrop
       (getRootProps (env:=Sample.env)
          (Sample.listening None true 0 None true true false) noRootOverrides) <> None
  /\ isDragActive
       (state_after
          (dispatch
             (root_onDragEnter
                (getRootProps (env:=Sample.env)
                   (Sample.listening None true 0 None true true false) noRootOverrides))
             (Sample.dragEvent Sample.root [Sample.pdf]))
          (initialState (env:=Sample.env)
             (Sample.listening None true 0 None true true false))) = true
  /\ In (CallOnDragEnter (Sample.dragEvent Sample.root [Sample.pdf]))
       (log_of
          (dispatch
             (root_onDragEnter
                (getRootProps (env:=Sample.env)
                   (Sample.listening None true 0 None true true false) noRootOverrides))
             (Sample.dragEvent Sample.root [Sample.pdf]))
          (initialState (env:=Sample.env)
             (Sample.listening None true 0 None true true false))).
Proof.
  repeat split; try discriminate.
  vm_compute. right. left. reflexivity.
Qed.

(** ** Invariants of handlers *)

(** Open every handler down to the monad's operations. *)
Ltac unfold_handlers :=
  unfold handle, settle, continuation, open, onInputElementClick, onClickCb, onBlurCb,
    onFocusCb, onKeyDownCb, onWindowFocus_timeout, onWindowFocus,
    openFileDialog_catch, openFileDialog_then, openFileDialog, onDocumentDrop,
    onDropCb_then, onDropCb, onDragLeaveCb, onDragOverCb, onDragEnterCb_then,
    onDragEnterCb, resetDragState, stopPropagation, onErrCb, setFiles in *.

Lemma preserves_ret {A} (I : State -> Prop) (a : A) : preserves I (mret a).
Proof. intros s Hs. exact Hs. Qed.

Lemma preserves_read {A} (I : State -> Prop) (proj : State -> A) : preserves I (read proj).
Proof. intros s Hs. exact Hs. Qed.

Lemma preserves_emit (I : State -> Prop) (e : Effect) : preserves I (emit e).
Proof. intros s Hs. exact Hs. Qed.

Lemma preserves_write (I : State -> Prop) (upd : State -> State) :
  (forall s, I s -> I (upd s)) -> preserves I (write upd).
Proof. intros Hupd s Hs. by apply Hupd. Qed.

Lemma preserves_bind {A B} (I : State -> Prop) (m : M A) (f : A -> M B) :
  preserves I m -> (forall a, preserves I (f a)) -> preserves I (m ≫= f).
Proof.
  intros Hm Hf s Hs. rewrite state_after_bind. apply Hf, Hm, Hs.
Qed.

(** Walk through a handler, splitting on its branches; what is left are the
    writes, each to be shown to keep the invariant. *)
Ltac frame :=
  repeat match goal with
    | |- preserves _ (mret _) => apply preserves_ret
    | |- preserves _ (read _) => apply preserves_read
    | |- preserves _ (emit _) => apply preserves_emit
    | |- preserves _ (write _) => apply preserves_write; intros ? ?
    | |- preserves _ (mbind _ _) => apply preserves_bind; [|intros ?]
    | |- preserves _ (when _ _) => unfold when
    | |- preserves _ (schedule _) => unfold schedule
    | |- preserves _ (if ?c then _ else _) => destruct c
    | |- preserves _ (match (match ?y with _ => _ end) with _ => _ end) => destruct y
    | |- preserves _ (match ?x with _ => _ end) => destruct x
    end.

(** Close the goals [frame] leaves when the invariant reads a field the
    write at hand does not touch. *)
Ltac untouched := unfold pickerOff, pickerOn in *; cbn; first [assumption | reflexivity].

(** ** The file dialog *)

Section Dialog.

Context {env : Env}.

(** No handler turns the picker flag on. *)
Lemma handle_never_upgrades (props : Props) (i : Input) :
  preserves pickerOff (handle props i).
Proof. destruct i; unfold_handlers; frame; untouched. Qed.

Lemma run_never_upgrades (steps : list (Props * Input)) :
  preserves pickerOff (run steps).
Proof.
  induction steps as [|[props i] steps IH]; cbn [run].
  - apply preserves_ret.
  - apply preserves_bind; [apply handle_never_upgrades | intros _; exact IH].
Qed.

Lemma downgrades_off (steps : list (Props * Input)) (s : State) :
  pickerOff s -> downgrades steps s = 0%nat.
Proof.
  revert s. induction steps as [|[props i] steps IH]; intros s Hoff; [reflexivity|].
  cbn [downgrades]. rewrite Hoff. cbn [andb].
  apply IH. by apply handle_never_upgrades.
Qed.

Lemma downgrades_at_most_once (steps : list (Props * Input)) (s : State) :
  (downgrades steps s <= 1)%nat.
Proof.
  revert s. induction steps as [|[props i] steps IH]; intros s; [cbn; lia|].
  cbn [downgrades].
  destruct (fsAccessApiWorks (state_after (handle props i) s)) eqn:Hafter.
  - rewrite andb_false_r. apply IH.
  - rewrite (downgrades_off steps _ Hafter). destruct (fsAccessApiWorks s); cbn; lia.
Qed.

(** A pending task is found in the queue. *)
Lemma pending_found (t : Task) (s : State) :
  t ∈ pending s ->
  exists i, list_find (fun t' => t' = t) (pending s) = Some (i, t).
Proof.
  intros Hin.
  destruct (list_find_elem_of (fun t' => t' = t) (pending s) t Hin eq_refl)
    as [[i t'] Hfind].
  exists i. apply list_find_Some in Hfind as Hspec. destruct Hspec as (_ & -> & _).
  exact Hfind.
Qed.

Lemma found_pending (t t' : Task) (i : nat) (s : State) :
  list_find (fun t' => t' = t) (pending s) = Some (i, t') -> t ∈ pending s.
Proof.
  intros Hfind. apply list_find_Some in Hfind as (Hlookup & -> & _).
  by apply list_elem_of_lookup_2 in Hlookup.
Qed.

(** The picker's [.catch] on a failure that is a security error and not an
    abort. *)
Lemma openFileDialog_catch_security (props : Props) (e : Error) (s : State) :
  isAbort e = false ->
  isSecurityError e = true ->
  exec (openFileDialog_catch props e) s =
  (setFsAccessApiWorks false s,
   match inputRef s with
   | Some el => [InputSetValue el ""; InputClick el]
   | None =>
       [ConsoleErrorTagged NO_INPUT_ERROR;
        if onError props then CallOnError NO_INPUT_ERROR
        else ConsoleError NO_INPUT_ERROR]
   end).
Proof.
  intros Habort Hsecurity. unfold openFileDialog_catch, onErrCb.
  rewrite Habort, Hsecurity. step_handler. cbn [inputRef setFsAccessApiWorks].
  destruct (inputRef s); [reflexivity|]. by destruct (onError props).
Qed.

(** The flag goes off only in the [.catch] of a pending picker promise, on
    a security error. *)
Lemma downgrade_only_on_security_failure (props : Props) (i : Input) (s : State) :
  pickerOn s ->
  pickerOff (state_after (handle props i) s) ->
  exists e, i = Settle PickerPromise (Rejected e)
            /\ PickerPromise ∈ pending s
            /\ isAbort e = false
            /\ isSecurityError e = true.
Proof.
  intros Hon Hoff.
  assert (Hkeep : (forall e, i <> Settle PickerPromise (Rejected e)) ->
                  preserves pickerOn (handle props i)).
  { intros Hother. destruct i as [| | | | | | | | | | | | | |t o];
      try (unfold_handlers; frame; untouched).
    destruct t, o; try (unfold_handlers; frame; untouched).
    by destruct (Hother e). }
  destruct i as [| | | | | | | | | | | | | |t o];
    try (exfalso; apply Hkeep in Hon; [unfold pickerOn, pickerOff in *; congruence
                                      | intros; discriminate]).
  destruct t; try (exfalso; apply Hkeep in Hon;
    [unfold pickerOn, pickerOff in *; congruence | intros; discriminate]).
  destruct o as [files stopped|e|files]; try (exfalso; apply Hkeep in Hon;
    [unfold pickerOn, pickerOff in *; congruence | intros; discriminate]).
  exists e. split; [reflexivity|].
  unfold pickerOn, pickerOff in *.
  cbn [handle] in Hoff. unfold settle in Hoff. cbn [continuation] in Hoff.
  rewrite state_after_bind in Hoff. cbn in Hoff.
  destruct (list_find (fun t' => t' = PickerPromise) (pending s)) as [[j t']|] eqn:Hfind;
    [|cbn in Hoff; congruence].
  split; [by eapply found_pending|].
  rewrite state_after_bind in Hoff. cbn in Hoff.
  unfold openFileDialog_catch, onErrCb in Hoff.
  destruct (isAbort e).
  { exfalso. revert Hoff. step_handler.
    destruct (onFileDialogCancel props); cbn; congruence. }
  destruct (isSecurityError e); [auto|].
  exfalso. revert Hoff. step_handler. destruct (onError props); cbn; congruence.
Qed.

(** Settling a pending picker promise with such a failure. *)
Lemma settle_security_failure (props : Props) (e : Error) (s : State) :
  PickerPromise ∈ pending s ->
  isAbort e = false ->
  isSecurityError e = true ->
  fsAccessApiWorks (state_after (handle props (Settle PickerPromise (Rejected e))) s) = false
  /\ log_of (handle props (Settle PickerPromise (Rejected e))) s =
     match inputRef s with
     | Some el => [InputSetValue el ""; InputClick el]
     | None =>
         [ConsoleErrorTagged NO_INPUT_ERROR;
          if onError props then CallOnError NO_INPUT_ERROR
          else ConsoleError NO_INPUT_ERROR]
     end.
Proof.
  intros Hin Habort Hsecurity.
  destruct (pending_found _ _ Hin) as [j Hfind].
  cbn [handle]. unfold settle. cbn [continuation].
  rewrite state_after_bind, log_of_bind. cbn. rewrite Hfind.
  rewrite state_after_bind, log_of_bind. cbn.
  pose proof (openFileDialog_catch_security props e
                (setPending (delete j (pending s)) s) Habort Hsecurity) as Hcatch.
  rewrite exec_pair in Hcatch. injection Hcatch as Hstate Hlog.
  rewrite Hstate, Hlog. cbn. auto.
Qed.

End Dialog.

(** C7. In every run of an instance the modern-picker flag goes from true
    to false at most once, and once false it is never true again.  A step
    turns it off exactly when it settles a pending picker promise with a
    failure that [isSecurityError] recognises (and that [isAbort], which is
    asked first, does not).  That step clicks the bound input after clearing
    its value, or, when no input is bound, goes through [onErrCb], which
    logs and calls [onError] if supplied. *)
Theorem picker_flag_downgraded_once {env : Env} :
  (forall steps s, (downgrades steps s <= 1)%nat)
  /\ (forall steps s,
       fsAccessApiWorks s = false ->
       fsAccessApiWorks (state_after (run steps) s) = false)
  /\ (forall props i s,
       fsAccessApiWorks s = true ->
       (fsAccessApiWorks (state_after (handle props i) s) = false <->
        exists e, i = Settle PickerPromise (Rejected e)
                  /\ PickerPromise ∈ pending s
                  /\ isAbort e = false
                  /\ isSecurityError e = true))
  /\ (forall props e s,
       PickerPromise ∈ pending s ->
       isAbort e = false ->
       isSecurityError e = true ->
       log_of (handle props (Settle PickerPromise (Rejected e))) s =
       match inputRef s with
       | Some el => [InputSetValue el ""; InputClick el]
       | None =>
           [ConsoleErrorTagged NO_INPUT_ERROR;
            if onError props then CallOnError NO_INPUT_ERROR
            else ConsoleError NO_INPUT_ERROR]
       end).
Proof.
  split; [apply downgrades_at_most_once|].
  split; [intros steps s; apply run_never_upgrades|].
  split.
  - intros props i s Hon. split.
    + by apply downgrade_only_on_security_failure.
    + intros (e & -> & Hin & Habort & Hsecurity).
      by apply settle_security_failure.
  - intros props e s Hin Habort Hsecurity.
    by apply settle_security_failure.
Qed.

(** A zone that asked for the modern picker, with no input bound: [open]
    starts the picker, the picker fails with a security error, and the
    failure goes to the error callback. *)
Lemma picker_flag_downgraded_once_witness :
  log_of
    (handle (env:=Sample.env) (Sample.listening None true 0 None false false true)
       (Settle PickerPromise
          (Rejected {| error_name := "SecurityError"; error_message := "blocked" |})))
    (state_after
       (run (env:=Sample.env)
          (under (Sample.listening None true 0 None false false true) [Open]))
       (initialState (env:=Sample.env) (Sample.listening None true 0 None false false true)))
  = [ConsoleErrorTagged (NO_INPUT_ERROR); CallOnError (NO_INPUT_ERROR)].
Proof.
  refine (proj2 (proj2 (proj2 (picker_flag_downgraded_once (env:=Sample.env))))
            (Sample.listening None true 0 None false false true)
            {| error_name := "SecurityError"; error_message := "blocked" |}
            (state_after
               (run (env:=Sample.env)
                  (under (Sample.listening None true 0 None false false true) [Open]))
               (initialState (env:=Sample.env)
                  (Sample.listening None true 0 None false false true)))
            _ _ _).
  - vm_compute. constructor.
  - reflexivity.
  - reflexivity.
Defined.

(** C8, as the code has it.  [onWindowFocus] looks at the two flags when the
    window regains focus: on the legacy path with the dialog marked active it
    sets a timer of 300ms, and otherwise it does nothing.  When the timer
    fires, its callback looks at the input only: if an input is bound and
    holds no files, the dialog is marked closed and [onFileDialogCancel] is
    called (if supplied); if the input holds files, or none is bound, nothing
    happens.  The dialog flag is not read again at that moment. *)
Theorem window_focus_cancel_detection {env : Env} (props : Props) (s : State) :
  exec onWindowFocus s =
    (if negb (fsAccessApiWorks s) && isFileDialogActive s
     then setPending (pending s ++ [FocusTimer]) s
     else s, [])
  /\ delay FocusTimer = Some 300
  /\ continuation props FocusTimer = (fun o =>
       match o with
       | Fired files => Some (onWindowFocus_timeout props files)
       | _ => None
       end)
  /\ forall (st : State) (files : option (list File)),
       exec (onWindowFocus_timeout props files) st =
       match inputRef st, default [] files with
       | Some _, [] =>
           (setIsFileDialogActive false st,
            if onFileDialogCancel props then [CallOnFileDialogCancel] else [])
       | _, _ => (st, [])
       end.
Proof.
  split.
  { unfold onWindowFocus. step_handler.
    by destruct (negb (fsAccessApiWorks s) && isFileDialogActive s). }
  split; [reflexivity|]. split; [reflexivity|].
  intros st files. unfold onWindowFocus_timeout. step_handler.
  destruct (inputRef st); [|reflexivity].
  destruct (default [] files); cbn; [|reflexivity].
  by destruct (onFileDialogCancel props).
Qed.

(** C8 as stated fails: the window regains focus twice while the legacy
    dialog is open, so two timers are set.  The first one closes the dialog
    and calls [onFileDialogCancel]; when the second one fires the dialog is
    no longer marked active, the input holds no files, and the callback is
    called again. *)
Lemma cancel_called_while_dialog_closed :
  isFileDialogActive
    (state_after
       (run (env:=Sample.env)
          (under Sample.plain
             [BindInput Sample.input; Open; WindowFocus; WindowFocus;
              Settle FocusTimer (Fired (Some []))]))
       (initialState (env:=Sample.env) Sample.plain)) = false
  /\ FocusTimer ∈
       pending
         (state_after
            (run (env:=Sample.env)
               (under Sample.plain
                  [BindInput Sample.input; Open; WindowFocus; WindowFocus;
                   Settle FocusTimer (Fired (Some []))]))
            (initialState (env:=Sample.env) Sample.plain))
  /\ log_of
       (handle (env:=Sample.env) Sample.plain (Settle FocusTimer (Fired (Some []))))
       (state_after
          (run (env:=Sample.env)
             (under Sample.plain
                [BindInput Sample.input; Open; WindowFocus; WindowFocus;
                 Settle FocusTimer (Fired (Some []))]))
          (initialState (env:=Sample.env) Sample.plain))
     = [CallOnFileDialogCancel].
Proof.
  split; [reflexivity|]. split; [|reflexivity].
  vm_compute. repeat constructor.
Qed.

(** ** The result object *)

(** C9, at the input where the code departs from it.  The result object
    holds [isFileDialogActive()], the value the signal had when the hook was
    created, where its neighbours hold accessors.  After [open()] on the
    legacy path the signal is true and the field still reads false. *)
Lemma result_isFileDialogActive_is_a_snapshot :
  isFileDialogActive
    (state_after
       (run (env:=Sample.env) (under defaultProps [BindInput Sample.input; Open]))
       (useDropzone (env:=Sample.env) defaultProps).1) = true
  /\ result_isFileDialogActive (useDropzone (env:=Sample.env) defaultProps).2 = false
  /\ result_isDragActive (useDropzone (env:=Sample.env) defaultProps).2
       (state_after
          (run (env:=Sample.env)
             (under defaultProps [DragEnter (Sample.dragEvent Sample.root [Sample.pdf])]))
          (useDropzone (env:=Sample.env) defaultProps).1) = true.
Proof. repeat split. Qed.

Section Focus.

Context {env : Env}.

(** The focus signal is written by [onFocusCb] and [onBlurCb] only. *)
Lemma handle_focus (props : Props) (i : Input) (s : State) :
  isFocused (state_after (handle props i) s) = true ->
  isFocused s = true \/ exists ev, i = Focus ev /\ cancelBubble ev = false.
Proof.
  intros Hfocused.
  destruct (isFocused s) eqn:Hbefore; [by left|]. right.
  assert (Hkeep : (forall ev, i <> Focus ev) ->
                  preserves (fun st => isFocused st = false) (handle props i)).
  { intros Hother. destruct i; try (unfold_handlers; frame; cbn; first [assumption | reflexivity]).
    by destruct (Hother event). }
  destruct i as [| | | | | |ev| | | | | | | |];
    try (apply Hkeep in Hbefore; [congruence | intros; discriminate]).
  exists ev. split; [reflexivity|].
  destruct (cancelBubble ev) eqn:Hcancel; [|reflexivity].
  cbn [handle] in Hfocused. unfold onFocusCb in Hfocused. rewrite Hcancel in Hfocused.
  cbn in Hfocused. congruence.
Qed.

Lemma run_focus (steps : list (Props * Input)) (s : State) :
  isFocused (state_after (run steps) s) = true ->
  isFocused s = true
  \/ exists props ev, (props, Focus ev) ∈ steps /\ cancelBubble ev = false.
Proof.
  revert s. induction steps as [|[props i] steps IH]; intros s Hfocused.
  - by left.
  - rewrite state_after_run_cons in Hfocused.
    destruct (IH _ Hfocused) as [Hstep|(p & ev & Hin & Hc)].
    + destruct (handle_focus props i s Hstep) as [?|(ev & -> & Hc)]; [by left|].
      right. exists props, ev. split; [apply list_elem_of_here | exact Hc].
    + right. exists p, ev. split; [by apply list_elem_of_further | exact Hc].
Qed.

End Focus.

(** C10.  The [isFocused] accessor of the result object answers false
    whenever [disabled] is true, whatever happened before.  In a run of an
    instance it answers true only if [disabled] is false and the focus
    signal is set, which takes a focus event whose propagation was not
    stopped; and right after such an event it does answer true on a zone
    that is not disabled. *)
Theorem isFocused_accessor {env : Env} (props0 : Props) :
  (forall props s,
     disabled props = true ->
     result_isFocused (useDropzone props0).2 props s = false)
  /\ (forall steps props,
      result_isFocused (useDropzone props0).2 props
        (state_after (run steps) (useDropzone props0).1) = true ->
      disabled props = false
      /\ isFocused (state_after (run steps) (useDropzone props0).1) = true
      /\ exists p ev, (p, Focus ev) ∈ steps /\ cancelBubble ev = false)
  /\ (forall props s ev,
      cancelBubble ev = false ->
      disabled props = false ->
      result_isFocused (useDropzone props0).2 props
        (state_after (onFocusCb ev) s) = true).
Proof.
  cbn [useDropzone fst snd result_isFocused].
  split; [intros props s ->; apply andb_false_r|].
  split.
  - intros steps props Hfocused. apply andb_true_iff in Hfocused as [Hsignal Hable].
    split; [by destruct (disabled props)|]. split; [exact Hsignal|].
    destruct (run_focus steps _ Hsignal) as [Hinit|Hev]; [discriminate Hinit | exact Hev].
  - intros props s ev Hc Hd. unfold onFocusCb. rewrite Hc, Hd. reflexivity.
Qed.

(** A focus event on a zone that is then disabled. *)
Lemma isFocused_accessor_witness :
  result_isFocused (useDropzone (env:=Sample.env) Sample.plain).2
    (Sample.listening None true 0 None true false false)
    (state_after
       (run (env:=Sample.env) (under Sample.plain [Focus (Sample.plainEvent Sample.root)]))
       (useDropzone (env:=Sample.env) Sample.plain).1) = false.
Proof.
  apply (proj1 (isFocused_accessor (env:=Sample.env) Sample.plain)).
  reflexivity.
Defined.

(** ** Further properties of the pipeline and of the prop getters *)

Section PipelineInvariants.

Context {env : Env}.
Variable props : Props.

(** The per-file step sends every file to one of the two arrays, in order. *)
Lemma perFile_partition (files : list File) (acc : list File * list FileRejection) :
  (foldl (setFiles_forEach props) acc files).1 ++
    map file (foldl (setFiles_forEach props) acc files).2
  ≡ₚ acc.1 ++ map file acc.2 ++ files.
Proof.
  revert acc. induction files as [|f files IH]; intros [accepted rejected].
  - cbn. by rewrite app_nil_r.
  - cbn [foldl]. rewrite IH. unfold setFiles_forEach.
    destruct (fileAccepted f (acceptAttr props)) as [ok typeError].
    destruct (fileMatchSize f (minSize props) (maxSize props)) as [fits sizeError].
    destruct (ok && fits && negb (truthy _)); cbn [fst snd].
    + rewrite <- app_assoc. cbn.
      by rewrite (Permutation_middle (map file rejected) files f).
    + rewrite map_app. cbn. rewrite <- !app_assoc. reflexivity.
Qed.

Lemma perFile_errors (P : FileRejection -> Prop) (files : list File)
    (acc : list File * list FileRejection) :
  (forall f arrays, Forall P arrays.2 -> Forall P (setFiles_forEach props arrays f).2) ->
  Forall P acc.2 ->
  Forall P (foldl (setFiles_forEach props) acc files).2.
Proof.
  intros Hstep. revert acc. induction files as [|f files IH]; intros acc Hacc.
  - exact Hacc.
  - cbn [foldl]. apply IH. by apply Hstep.
Qed.

End PipelineInvariants.

(** The pipeline neither loses a file nor reports one twice: the accepted
    files together with the files of the rejections are the input files, up
    to order. *)
Theorem filteredFiles_partition {env : Env} (props : Props) (files : list File) :
  (filteredFiles props files).1 ++ map file (filteredFiles props files).2 ≡ₚ files.
Proof.
  unfold filteredFiles, perFile.
  pose proof (perFile_partition props files ([], [])) as Hper. cbn in Hper.
  destruct (foldl (setFiles_forEach props) ([], []) files) as [accepted rejected].
  cbn [fst snd] in Hper.
  destruct (tooManyFiles props accepted); cbn [fst snd]; [|exact Hper].
  rewrite foldl_pushTooMany, map_app, map_map. cbn. rewrite map_id.
  rewrite <- Hper. apply Permutation_app_comm.
Qed.

(** Every rejection carries at least one error, provided the two file
    predicates name an error whenever they fail and the validator never
    answers with an empty array. *)
Theorem rejections_have_errors {env : Env} (props : Props) (files : list File) :
  (forall f a e, fileAccepted f a = (false, e) -> e <> None) ->
  (forall f min max e, fileMatchSize f min max = (false, e) -> e <> None) ->
  (forall validate f, validator props = Some validate -> validate f <> VErrors []) ->
  Forall (fun r => errors r <> []) (filteredFiles props files).2.
Proof.
  intros Htype Hsize Hvalid. unfold filteredFiles, perFile.
  pose proof (perFile_errors props (fun r => errors r <> []) files ([], [])) as Hper.
  destruct (foldl (setFiles_forEach props) ([], []) files) as [accepted rejected].
  cbn [fst snd] in Hper.
  assert (Hrej : Forall (fun r => errors r <> []) rejected).
  { apply Hper; [|constructor].
    intros f [acc rej] Hacc. cbn [snd] in Hacc. unfold setFiles_forEach.
    destruct (fileAccepted f (acceptAttr props)) as [ok typeError] eqn:Hok.
    destruct (fileMatchSize f (minSize props) (maxSize props)) as [fits sizeError] eqn:Hfits.
    destruct (ok && fits && negb (truthy _)) eqn:Hall; cbn [snd]; [exact Hacc|].
    apply Forall_app. split; [exact Hacc|]. constructor; [|constructor]. cbn [errors].
    destruct ok.
    - destruct fits.
      + cbn in Hall. apply negb_false_iff in Hall. rewrite Hall.
        destruct (validator props) as [validate|] eqn:Hv; [|discriminate Hall].
        specialize (Hvalid validate f eq_refl).
        destruct (validate f) as [|e|[|e es]]; cbn in *;
          try discriminate; try congruence;
          destruct typeError, sizeError; cbn; discriminate.
      + apply Hsize in Hfits. destruct sizeError as [e|]; [|congruence].
        destruct typeError; cbn; destruct (truthy _); discriminate.
    - apply Htype in Hok. destruct typeError as [e|]; [|congruence].
      cbn. destruct (truthy _); discriminate. }
  destruct (tooManyFiles props accepted); cbn [snd]; [|exact Hrej].
  rewrite foldl_pushTooMany. apply Forall_app. split; [exact Hrej|].
  apply Forall_map, Forall_forall. intros f _. discriminate.
Qed.

(** The sample predicates name their errors, and no validator is set. *)
Lemma rejections_have_errors_witness :
  Forall (fun r => errors r <> [])
    (filteredFiles (env:=Sample.env)
       (Sample.listening (Some "image/*") true 0 None false false false)
       [Sample.pdf; Sample.cats]).2.
Proof.
  apply (rejections_have_errors (env:=Sample.env)).
  - intros f a e. cbn. destruct (Sample.typeMatches f a); intros [= <-]. discriminate.
  - intros f min max e. cbn. destruct (Sample.sizeError f min max); intros [= <-].
    discriminate.
  - intros validate f. discriminate.
Defined.

(** A disabled zone has no keyboard, focus, click, change or input-click
    handler, whatever the other props and whatever the caller passes to the
    getters, and the getter adds no tab stop of its own: the bundle's
    [tabIndex] is the caller's, if it passed one.  The drag handlers are
    absent too unless bubbling suppression is on and [noDrag] is off. *)
Theorem disabled_handlers_absent
    {env : Env} (props : Props) (root : RootHandlers) (input : InputHandlers) :
  disabled props = true ->
  root_onKeyDown (getRootProps props root) = None
  /\ root_onFocus (getRootProps props root) = None
  /\ root_onBlur (getRootProps props root) = None
  /\ root_onClick (getRootProps props root) = None
  /\ root_tabIndex (getRootProps props root) = root_tabIndex root
  /\ input_onChange (getInputProps props input) = None
  /\ input_onClick (getInputProps props input) = None
  /\ (noDragEventsBubbling props && negb (noDrag props) = false ->
      root_onDragEnter (getRootProps props root) = None
      /\ root_onDragOver (getRootProps props root) = None
      /\ root_onDragLeave (getRootProps props root) = None
      /\ root_onDrop (getRootProps props root) = None).
Proof.
  intros Hdisabled.
  unfold getRootProps, getInputProps, composeKeyboardHandler, composeDragHandler,
    composeHandler.
  cbn. rewrite Hdisabled. cbn.
  destruct (noKeyboard props), (noDrag props), (noDragEventsBubbling props),
    (root_tabIndex root); cbn;
    repeat split; try reflexivity; intros; discriminate.
Qed.

(** The disabled zone of the tests: no handler anywhere. *)
Lemma disabled_handlers_absent_witness :
  root_onClick
    (getRootProps (env:=Sample.env)
       (Sample.listening None true 0 None true false false) noRootOverrides) = None
  /\ input_onChange
       (getInputProps (env:=Sample.env)
          (Sample.listening None true 0 None true false false) noInputOverrides) = None.
Proof.
  destruct (disabled_handlers_absent (env:=Sample.env)
              (Sample.listening None true 0 None true false false)
              noRootOverrides noInputOverrides eq_refl)
    as (_ & _ & _ & Hclick & _ & Hchange & _).
  split; [exact Hclick | exact Hchange].
Defined.

(** ** More on the pipeline *)

Section PipelineFilter.

Context {env : Env}.
Variable props : Props.

Lemma setFiles_forEach_passes (arrays : list File * list FileRejection) (f : File) :
  (setFiles_forEach props arrays f).1 =
    arrays.1 ++ (if passes props f then [f] else [])
  /\ map file (setFiles_forEach props arrays f).2 =
    map file arrays.2 ++ (if passes props f then [] else [f]).
Proof.
  destruct arrays as [accepted rejected]. unfold setFiles_forEach, passes.
  destruct (fileAccepted f (acceptAttr props)) as [ok typeError].
  destruct (fileMatchSize f (minSize props) (maxSize props)) as [fits sizeError].
  cbn [fst snd].
  destruct (ok && fits && negb (truthy _)); cbn [fst snd].
  - by rewrite app_nil_r.
  - by rewrite app_nil_r, map_app.
Qed.

Lemma foldl_forEach_filter (files : list File) (arrays : list File * list FileRejection) :
  (foldl (setFiles_forEach props) arrays files).1 =
    arrays.1 ++ List.filter (passes props) files
  /\ map file (foldl (setFiles_forEach props) arrays files).2 =
    map file arrays.2 ++ List.filter (fun f => negb (passes props f)) files.
Proof.
  revert arrays. induction files as [|f files IH]; intros arrays.
  - cbn. by rewrite !app_nil_r.
  - cbn [foldl List.filter].
    destruct (IH (setFiles_forEach props arrays f)) as [IHa IHr].
    destruct (setFiles_forEach_passes arrays f) as [Ha Hr].
    rewrite IHa, IHr, Ha, Hr.
    destruct (passes props f); cbn [negb]; rewrite <- !app_assoc; by cbn.
Qed.

Lemma tooManyFiles_nil : tooManyFiles props [] = false.
Proof.
  unfold tooManyFiles. cbn.
  destruct (multiple props); cbn; [|reflexivity].
  destruct (1 <=? maxFiles props) eqn:Hle; [|reflexivity].
  apply Z.leb_le in Hle. cbn. apply Z.ltb_ge. lia.
Qed.

Lemma filter_passes_all (files : list File) :
  List.filter (fun f => negb (passes props f)) (List.filter (passes props) files) = [].
Proof.
  induction files as [|f files IH]; [reflexivity|].
  cbn. destruct (passes props f) eqn:Hp; [|exact IH].
  cbn. by rewrite Hp.
Qed.

Lemma filter_passes_idem (files : list File) :
  List.filter (passes props) (List.filter (passes props) files) =
  List.filter (passes props) files.
Proof.
  induction files as [|f files IH]; [reflexivity|].
  cbn. destruct (passes props f) eqn:Hp; [|exact IH].
  cbn. by rewrite Hp, IH.
Qed.

End PipelineFilter.

(** The per-file step works as a filter: the accepted array holds exactly
    the input files that pass the type check, the size check and the
    validator, in input order, and the rejections are for exactly the other
    files, in input order. *)
Theorem perFile_filters {env : Env} (props : Props) (files : list File) :
  (perFile props files).1 = List.filter (passes props) files
  /\ map file (perFile props files).2 =
     List.filter (fun f => negb (passes props f)) files.
Proof. apply (foldl_forEach_filter props files ([], [])). Qed.

(** Running the pipeline again on the files it accepted accepts them all
    again and rejects nothing. *)
Theorem filteredFiles_stable {env : Env} (props : Props) (files : list File) :
  filteredFiles props (filteredFiles props files).1 = ((filteredFiles props files).1, []).
Proof.
  unfold filteredFiles at 2 3.
  destruct (foldl_forEach_filter props files ([], [])) as [Hacc _].
  fold (perFile props files) in Hacc.
  destruct (perFile props files) as [accepted rejected]. cbn [fst app] in Hacc.
  destruct (tooManyFiles props accepted) eqn:Hguard; cbn [fst].
  - unfold filteredFiles, perFile. cbn. by rewrite tooManyFiles_nil.
  - unfold filteredFiles.
    destruct (foldl_forEach_filter props accepted ([], [])) as [Hacc' Hrej'].
    fold (perFile props accepted) in Hacc', Hrej'.
    destruct (perFile props accepted) as [accepted' rejected'].
    cbn [fst snd app map] in Hacc', Hrej'.
    rewrite Hacc, filter_passes_idem in Hacc'. rewrite <- Hacc in Hacc'.
    rewrite Hacc, filter_passes_all in Hrej'.
    apply map_eq_nil in Hrej'. subst accepted' rejected'.
    by rewrite Hguard.
Qed.

(** With [multiple] on and [maxFiles] below 1 (0, the default, or a negative
    number) the count is not limited: whatever passes the per-file step is
    accepted. *)
Theorem filteredFiles_unlimited {env : Env} (props : Props) (files : list File) :
  multiple props = true ->
  maxFiles props < 1 ->
  filteredFiles props files = perFile props files.
Proof.
  intros Hmultiple Hmax. unfold filteredFiles.
  destruct (perFile props files) as [accepted rejected].
  destruct (tooManyFiles props accepted) eqn:Hguard; [|reflexivity].
  apply tooManyFiles_spec in Hguard as [[Hm _]|(_ & Hle & _)]; [congruence | lia].
Qed.

(** Three files on a zone with the default limits: all three are accepted. *)
Lemma filteredFiles_unlimited_witness :
  filteredFiles (env:=Sample.env) Sample.plain [Sample.pdf; Sample.cats; Sample.dogs]
  = perFile (env:=Sample.env) Sample.plain [Sample.pdf; Sample.cats; Sample.dogs].
Proof.
  apply (filteredFiles_unlimited (env:=Sample.env)); [reflexivity | reflexivity].
Defined.

(** ** More on the drag handlers *)

(** What a drag-enter does to the three flags.  An event that exposes its
    files synchronously activates the zone at once, with drag-reject the
    negation of drag-accept.  An event that does not leaves the flags alone
    and, if it is file-carrying, leaves an extraction pending.  When the
    extraction is fulfilled, the continuation either is swallowed
    (propagation stopped, bubbling suppression off) and does nothing at all,
    or activates the zone: with no extracted file drag-accept and
    drag-reject are both false, otherwise exactly one of them is true. *)
Theorem drag_enter_flags
    {env : Env} (props : Props) (event : DomEvent) (s : State)
    (files : list File) (propagationStopped : bool) :
  let entered := state_after (onDragEnterCb props event) s in
  let settled := state_after (onDragEnterCb_then props event files propagationStopped) s in
  match syncFilesOf event with
  | Some syncFiles =>
      dragFlags entered =
        (true, allAccepted props syncFiles, negb (allAccepted props syncFiles))
      /\ pending entered = pending s
  | None =>
      dragFlags entered = dragFlags s
      /\ pending entered =
         if isEvtWithFiles event then pending s ++ [EnterExtraction event] else pending s
  end
  /\ if propagationStopped && negb (noDragEventsBubbling props)
     then exec (onDragEnterCb_then props event files propagationStopped) s = (s, [])
     else dragFlags settled =
            (true, nonEmpty files && allAccepted props files,
             nonEmpty files && negb (allAccepted props files))
          /\ xorb (isDragAccept settled) (isDragReject settled) = nonEmpty files.
Proof.
  cbv zeta. split.
  - unfold onDragEnterCb, stopPropagation. step_handler.
    destruct (syncFilesOf event);
      destruct (noDragEventsBubbling props), (hasStopImmediatePropagation event),
        (onDragEnter props), (isEvtWithFiles event); split; reflexivity.
  - unfold onDragEnterCb_then.
    destruct (propagationStopped && negb (noDragEventsBubbling props)); [reflexivity|].
    step_handler.
    destruct (onDragEnter props), (nonEmpty files), (allAccepted props files);
      split; reflexivity.
Qed.

Section AfterDrop.

Context {env : Env}.
Variable props : Props.

Lemma onDocumentDrop_exec (event : DomEvent) (s : State) :
  exec (onDocumentDrop event) s =
  if rootContains (rootRef s) (target event) then (s, [])
  else (setDragTargets [] s, [PreventDefault event]).
Proof.
  unfold onDocumentDrop. step_handler.
  by destruct (rootContains (rootRef s) (target event)).
Qed.

End AfterDrop.

(** ** More on the file dialog *)

Section DialogOutcomes.

Context {env : Env}.
Variable props : Props.

(** [openFileDialog] in closed form. *)
Lemma openFileDialog_exec (s : State) :
  exec (openFileDialog props) s =
  if fsAccessApiWorks s then
    (setPending (pending s ++ [PickerPromise]) (setIsFileDialogActive true s),
     (if onFileDialogOpen props then [CallOnFileDialogOpen] else [])
     ++ [ShowOpenFilePicker (multiple props)])
  else
    match inputRef s with
    | Some el =>
        (setIsFileDialogActive true s,
         (if onFileDialogOpen props then [CallOnFileDialogOpen] else [])
         ++ [InputSetValue el ""; InputClick el])
    | None => (s, [])
    end.
Proof.
  unfold openFileDialog. step_handler.
  destruct (fsAccessApiWorks s); cbn.
  - by destruct (onFileDialogOpen props).
  - destruct (inputRef s); [|reflexivity]. by destruct (onFileDialogOpen props).
Qed.

End DialogOutcomes.

(** The same-tick guard of [open].  On a zone that is not disabled, a click
    on the root that is handled after [open()] and before the guard's timer
    fires does nothing: no second dialog, no timer, no call.  When the timer
    fires the guard is lifted, and the next click is handled again. *)
Theorem click_after_open
    {env : Env} (props : Props) (click : DomEvent) (s : State)
    (files : option (list File)) :
  disabled props = false ->
  let opened := state_after (open props) s in
  let later := state_after (handle props (Settle ResetOpenFlagTimer (Fired files))) opened in
  openCalledInThisTick opened = true
  /\ exec (onClickCb props click) opened = (opened, [])
  /\ openCalledInThisTick later = false
  /\ (cancelBubble click = false -> noClick props = false -> isIeOrEdge = false ->
      pending (state_after (onClickCb props click) later) = pending later ++ [OpenDialogTimer]).
Proof.
  intros Henabled. cbv zeta.
  assert (Hopened :
    state_after (open props) s =
    setPending (pending (state_after (openFileDialog props) (setOpenCalledInThisTick true s))
                ++ [ResetOpenFlagTimer])
      (state_after (openFileDialog props) (setOpenCalledInThisTick true s))).
  { unfold open. rewrite Henabled. cbn [negb when]. by rewrite !state_after_bind. }
  assert (Hflag : openCalledInThisTick (state_after (open props) s) = true).
  { rewrite Hopened. cbn [openCalledInThisTick setPending].
    pose proof (openFileDialog_exec props (setOpenCalledInThisTick true s)) as Hexec.
    rewrite exec_pair in Hexec.
    destruct (fsAccessApiWorks (setOpenCalledInThisTick true s));
      [|destruct (inputRef (setOpenCalledInThisTick true s))];
      injection Hexec as -> _; reflexivity. }
  split; [exact Hflag|]. split.
  { revert Hflag. generalize (state_after (open props) s) as opened.
    intros opened Hflag. unfold onClickCb.
    destruct (cancelBubble click); [reflexivity|].
    step_handler. rewrite Hflag. by rewrite orb_true_r. }
  assert (Hin : ResetOpenFlagTimer ∈ pending (state_after (open props) s)).
  { rewrite Hopened. cbn [pending setPending]. apply elem_of_app. right. constructor. }
  destruct (pending_found _ _ Hin) as [j Hfind].
  assert (Hlater :
    state_after (handle props (Settle ResetOpenFlagTimer (Fired files)))
      (state_after (open props) s) =
    setOpenCalledInThisTick false
      (setPending (delete j (pending (state_after (open props) s)))
         (state_after (open props) s))).
  { cbn [handle]. unfold settle. cbn [continuation].
    rewrite state_after_bind. cbn. rewrite Hfind. by rewrite state_after_bind. }
  split; [by rewrite Hlater|].
  intros Hbubble HnoClick Hie. rewrite Hlater.
  generalize (setPending (delete j (pending (state_after (open props) s)))
                (state_after (open props) s)) as st.
  intros st. unfold onClickCb. rewrite Hbubble. step_handler. cbn.
  rewrite HnoClick, Hie. reflexivity.
Qed.

(** [open()] on the sample zone, then a click in the same tick. *)
Lemma click_after_open_witness :
  exec (onClickCb (env:=Sample.env) Sample.plain (Sample.plainEvent Sample.root))
    (state_after (open Sample.plain)
       (setInputRef (Some Sample.input) (initialState (env:=Sample.env) Sample.plain)))
  = (state_after (open Sample.plain)
       (setInputRef (Some Sample.input) (initialState (env:=Sample.env) Sample.plain)),
     []).
Proof.
  exact (proj1 (proj2
    (click_after_open (env:=Sample.env) Sample.plain (Sample.plainEvent Sample.root)
       (setInputRef (Some Sample.input) (initialState (env:=Sample.env) Sample.plain))
       None eq_refl))).
Defined.

(** How a picker promise ends.  On success the pipeline runs without an
    event, so none of the drop callbacks is called; the signals receive the
    filtered files and the dialog is marked closed.  A failure that
    [isAbort] recognises calls [onFileDialogCancel] and marks the dialog
    closed.  Any other failure leaves the dialog marked active; one that is
    not a security error either only goes through [onErrCb]. *)
Theorem picker_outcomes {env : Env} (props : Props) (s : State) :
  (forall files,
     let closed := state_after (openFileDialog_then props files) s in
     log_of (openFileDialog_then props files) s = []
     /\ isFileDialogActive closed = false
     /\ acceptedFiles closed = (filteredFiles props files).1
     /\ fileRejections closed = (filteredFiles props files).2
     /\ isDragReject closed = nonEmpty (filteredFiles props files).2)
  /\ (forall e,
      isAbort e = true ->
      exec (openFileDialog_catch props e) s =
      (setIsFileDialogActive false s,
       if onFileDialogCancel props then [CallOnFileDialogCancel] else []))
  /\ (forall e,
      isAbort e = false ->
      isFileDialogActive (state_after (openFileDialog_catch props e) s) =
      isFileDialogActive s)
  /\ (forall e,
      isAbort e = false ->
      isSecurityError e = false ->
      exec (openFileDialog_catch props e) s =
      (s, [ConsoleErrorTagged e;
           if onError props then CallOnError e else ConsoleError e])).
Proof.
  split.
  { intros files. cbv zeta. unfold openFileDialog_then.
    rewrite log_of_bind, state_after_bind, setFiles_log, setFiles_state.
    cbn. auto. }
  split.
  { intros e Habort. unfold openFileDialog_catch. rewrite Habort. step_handler.
    by destruct (onFileDialogCancel props). }
  split.
  { intros e Habort. unfold openFileDialog_catch, onErrCb. rewrite Habort.
    destruct (isSecurityError e); step_handler.
    - cbn. destruct (inputRef s); [reflexivity|]. by destruct (onError props).
    - by destruct (onError props). }
  intros e Habort Hsecurity. unfold openFileDialog_catch, onErrCb.
  rewrite Habort, Hsecurity. step_handler. by destruct (onError props).
Qed.

(** The picker aborted by the user on the sample zone. *)
Lemma picker_outcomes_witness :
  exec
    (openFileDialog_catch (env:=Sample.env) Sample.plain
       {| error_name := "AbortError"; error_message := "cancelled" |})
    (initialState (env:=Sample.env) Sample.plain)
  = (setIsFileDialogActive false (initialState (env:=Sample.env) Sample.plain),
     [CallOnFileDialogCancel]).
Proof.
  exact (proj1 (proj2
    (picker_outcomes (env:=Sample.env) Sample.plain
       (initialState (env:=Sample.env) Sample.plain)))
    {| error_name := "AbortError"; error_message := "cancelled" |} eq_refl).
Defined.

(** ** What the handlers never do *)

Lemma quiet_ret {A} (I : State -> Prop) (Q : Effect -> Prop) (a : A) :
  quiet I Q (mret a).
Proof. intros s Hs. split; [exact Hs | constructor]. Qed.

Lemma quiet_read {A} (I : State -> Prop) (Q : Effect -> Prop) (proj : State -> A) :
  quiet I Q (read proj).
Proof. intros s Hs. split; [exact Hs | constructor]. Qed.

Lemma quiet_emit (I : State -> Prop) (Q : Effect -> Prop) (e : Effect) :
  Q e -> quiet I Q (emit e).
Proof. intros He s Hs. split; [exact Hs | by repeat constructor]. Qed.

Lemma quiet_write (I : State -> Prop) (Q : Effect -> Prop) (upd : State -> State) :
  (forall s, I s -> I (upd s)) -> quiet I Q (write upd).
Proof. intros Hupd s Hs. split; [by apply Hupd | constructor]. Qed.

Lemma quiet_bind {A B} (I : State -> Prop) (Q : Effect -> Prop)
    (m : M A) (f : A -> M B) :
  quiet I Q m -> (forall a, quiet I Q (f a)) -> quiet I Q (m ≫= f).
Proof.
  intros Hm Hf s Hs. rewrite state_after_bind, log_of_bind.
  destruct (Hm s Hs) as [Hs' Hl]. destruct (Hf (m s).1.1 _ Hs') as [Hs'' Hl'].
  split; [exact Hs'' | by apply Forall_app].
Qed.

Section NoPicker.

Context {env : Env}.

(** With the flag off, [openFileDialog] goes to the input. *)
Lemma openFileDialog_off (props : Props) :
  quiet pickerOff noPickerCall (openFileDialog props).
Proof.
  intros s Hoff. unfold state_after, log_of. rewrite openFileDialog_exec.
  unfold pickerOff in Hoff. rewrite Hoff.
  destruct (inputRef s); cbn [fst snd]; [|by split].
  split; [exact Hoff|]. destruct (onFileDialogOpen props); by repeat constructor.
Qed.

Lemma handle_off (props : Props) (i : Input) :
  quiet pickerOff noPickerCall (handle props i).
Proof.
  destruct i;
    unfold handle, settle, continuation, open, onInputElementClick, onClickCb,
      onBlurCb, onFocusCb, onKeyDownCb, onWindowFocus_timeout, onWindowFocus,
      openFileDialog_catch, openFileDialog_then, onDocumentDrop,
      onDropCb_then, onDropCb, onDragLeaveCb, onDragOverCb, onDragEnterCb_then,
      onDragEnterCb, resetDragState, stopPropagation, onErrCb, setFiles;
    repeat match goal with
      | |- quiet _ _ (openFileDialog _) => apply openFileDialog_off
      | |- quiet _ _ (mret _) => apply quiet_ret
      | |- quiet _ _ (read _) => apply quiet_read
      | |- quiet _ _ (emit _) => apply quiet_emit; reflexivity
      | |- quiet _ _ (write _) => apply quiet_write; intros ? ?
      | |- quiet _ _ (mbind _ _) => apply quiet_bind; [|intros ?]
      | |- quiet _ _ (when _ _) => unfold when
      | |- quiet _ _ (schedule _) => unfold schedule
      | |- quiet _ _ (if ?c then _ else _) => destruct c
      | |- quiet _ _ (match (match ?y with _ => _ end) with _ => _ end) => destruct y
      | |- quiet _ _ (match ?x with _ => _ end) => destruct x
      end;
    untouched.
Qed.

Lemma run_off (steps : list (Props * Input)) :
  quiet pickerOff noPickerCall (run steps).
Proof.
  induction steps as [|[props i] steps IH]; cbn [run].
  - apply quiet_ret.
  - apply quiet_bind; [apply handle_off | intros _; exact IH].
Qed.

End NoPicker.

(** While the modern-picker flag is off, and so from the start on a zone
    that did not opt in or whose platform lacks the API, no run of the
    handlers ever calls [showOpenFilePicker]. *)
Theorem picker_never_shown_when_off
    {env : Env} (steps : list (Props * Input)) (s : State) :
  fsAccessApiWorks s = false ->
  Forall (fun e => isPickerCall e = false) (log_of (run steps) s).
Proof. intros Hoff. by destruct (run_off steps s Hoff). Qed.

(** The default zone: keyboard, click timer and [open()] all end at the
    input. *)
Lemma picker_never_shown_when_off_witness :
  Forall (fun e => isPickerCall e = false)
    (log_of
       (run (env:=Sample.env)
          (under Sample.plain
             [BindInput Sample.input; Open; Click (Sample.plainEvent Sample.root);
              Settle OpenDialogTimer (Fired None)]))
       (initialState (env:=Sample.env) Sample.plain)).
Proof.
  apply (picker_never_shown_when_off (env:=Sample.env)). reflexivity.
Defined.

Section OnlyOn.

Context {env : Env}.

(** [openFileDialog] marks the dialog active only if it has a way to open
    one. *)
Lemma openFileDialog_active (props : Props) (s : State) :
  isFileDialogActive (state_after (openFileDialog props) s) = true ->
  isFileDialogActive s = true \/ fsAccessApiWorks s = true \/ inputRef s <> None.
Proof.
  unfold state_after. rewrite openFileDialog_exec.
  destruct (fsAccessApiWorks s); [auto|].
  destruct (inputRef s); cbn [fst]; [right; right; discriminate | auto].
Qed.

(** An enter that exposes no files synchronously leaves drag-active alone. *)
Lemma onDragEnterCb_async_active (props : Props) (event : DomEvent) (s : State) :
  syncFilesOf event = None ->
  isDragActive (state_after (onDragEnterCb props event) s) = isDragActive s.
Proof.
  intros Hnone. unfold onDragEnterCb, stopPropagation. step_handler. rewrite Hnone.
  by destruct (noDragEventsBubbling props), (hasStopImmediatePropagation event),
    (isEvtWithFiles event).
Qed.

End OnlyOn.

(** The accepted files and the rejections stay as they are through drag
    activity, focus, clicks, timers and dialog failures: a step changes one
    of the two signals only if it is a drop (or input change), a fulfilled
    extraction of a drop, or a fulfilled picker promise. *)
Theorem files_change_only_on_results
    {env : Env} (props : Props) (i : Input) (s : State) :
  acceptedFiles (state_after (handle props i) s) <> acceptedFiles s
  \/ fileRejections (state_after (handle props i) s) <> fileRejections s ->
  (exists event, i = Drop event)
  \/ (exists event files stopped, i = Settle (DropExtraction event) (Fulfilled files stopped))
  \/ (exists files stopped, i = Settle PickerPromise (Fulfilled files stopped)).
Proof.
  intros Hchanged.
  assert (Hkeep :
    (forall event, i <> Drop event) ->
    (forall event files stopped,
       i <> Settle (DropExtraction event) (Fulfilled files stopped)) ->
    (forall files stopped, i <> Settle PickerPromise (Fulfilled files stopped)) ->
    preserves (fun st => acceptedFiles st = acceptedFiles s
                         /\ fileRejections st = fileRejections s)
      (handle props i)).
  { intros Hdrop Hextraction Hpicker.
    destruct i as [| | |event| | | | | | | | | | |t o];
      try (unfold_handlers; frame; cbn; assumption).
    - by destruct (Hdrop event).
    - destruct t, o; try (unfold_handlers; frame; cbn; assumption).
      + by destruct (Hextraction event files propagationStopped).
      + by destruct (Hpicker files propagationStopped). }
  destruct i as [| | |event| | | | | | | | | | |t o];
    try (exfalso; destruct (Hkeep ltac:(intros; discriminate) ltac:(intros; discriminate)
                              ltac:(intros; discriminate) s (conj eq_refl eq_refl))
           as [Ha Hr]; destruct Hchanged; contradiction).
  - left. by exists event.
  - destruct t as [event|event| | | |], o as [files stopped|e|files];
      try (exfalso; destruct (Hkeep ltac:(intros; discriminate) ltac:(intros; discriminate)
                                ltac:(intros; discriminate) s (conj eq_refl eq_refl))
             as [Ha Hr]; destruct Hchanged; contradiction).
    + right. left. by exists event, files, stopped.
    + right. right. by exists files, stopped.
Qed.

(** A pdf dropped on the sample zone changes the accepted files. *)
Lemma files_change_only_on_results_witness :
  (exists event, Drop (Sample.dragEvent Sample.root [Sample.pdf]) = Drop event)
  \/ (exists event files stopped,
        Drop (Sample.dragEvent Sample.root [Sample.pdf]) =
        Settle (DropExtraction event) (Fulfilled files stopped))
  \/ (exists files stopped,
        Drop (Sample.dragEvent Sample.root [Sample.pdf]) =
        Settle PickerPromise (Fulfilled files stopped)).
Proof.
  apply (files_change_only_on_results (env:=Sample.env) Sample.plain
           (Drop (Sample.dragEvent Sample.root [Sample.pdf]))
           (initialState (env:=Sample.env) Sample.plain)).
  left. vm_compute. discriminate.
Defined.

(** The dialog is marked active only on request and only if there is a way
    to open one: a step takes the dialog flag from false to true only if it
    is [open()], a key-down or the click's timer, and only if the picker
    flag is on or an input is bound. *)
Theorem dialog_opens_only_on_request
    {env : Env} (props : Props) (i : Input) (s : State) :
  isFileDialogActive s = false ->
  isFileDialogActive (state_after (handle props i) s) = true ->
  (i = Open
   \/ (exists event, i = KeyDown event)
   \/ (exists files, i = Settle OpenDialogTimer (Fired files)))
  /\ (fsAccessApiWorks s = true \/ inputRef s <> None).
Proof.
  intros Hclosed Hactive.
  assert (Hkeep :
    i <> Open ->
    (forall event, i <> KeyDown event) ->
    (forall files, i <> Settle OpenDialogTimer (Fired files)) ->
    preserves (fun st => isFileDialogActive st = false) (handle props i)).
  { intros Hopen Hkey Htimer.
    destruct i as [| | | | |event| | | | | | | | |t o];
      try (unfold_handlers; frame; cbn; first [assumption | reflexivity]).
    - by destruct (Hkey event).
    - by destruct Hopen.
    - destruct t, o; try (unfold_handlers; frame; cbn; first [assumption | reflexivity]).
      by destruct (Htimer inputFiles). }
  assert (Hway : forall st,
    isFileDialogActive st = false ->
    fsAccessApiWorks st = fsAccessApiWorks s ->
    inputRef st = inputRef s ->
    isFileDialogActive (state_after (openFileDialog props) st) = true ->
    fsAccessApiWorks s = true \/ inputRef s <> None).
  { intros st Hst Hfs Hin Hopened.
    destruct (openFileDialog_active props st Hopened) as [?|[?|?]]; [congruence| |];
      [left | right]; congruence. }
  destruct i as [| | | | |event| | | | | |  | | |t o];
    try (exfalso; apply Hkeep in Hclosed;
         [congruence | discriminate | intros; discriminate | intros; discriminate]).
  - split; [right; left; by exists event|].
    revert Hactive. cbn [handle]. unfold onKeyDownCb.
    destruct (cancelBubble event); [cbn; congruence|].
    rewrite state_after_bind. cbn.
    destruct (rootRef s) as [r|]; [|cbn; congruence].
    destruct (negb (isEqualNode r (target event))); [cbn; congruence|].
    destruct (_ || _)%bool; [|cbn; congruence].
    rewrite state_after_bind. cbn. by apply Hway.
  - split; [by left|].
    revert Hactive. cbn [handle]. unfold open.
    destruct (disabled props); cbn [negb when]; [cbn; congruence|].
    rewrite !state_after_bind. cbn. by apply Hway.
  - destruct t, o as [files stopped|e|files];
      try (exfalso; apply Hkeep in Hclosed;
           [congruence | discriminate | intros; discriminate | intros; discriminate]).
    split; [right; right; by exists files|].
    revert Hactive. cbn [handle]. unfold settle. cbn [continuation].
    rewrite state_after_bind. cbn.
    destruct (list_find _ _) as [[j t']|]; [|cbn; congruence].
    rewrite state_after_bind. cbn. by apply Hway.
Qed.

(** [open()] on the sample zone with its input bound. *)
Lemma dialog_opens_only_on_request_witness :
  (Open = Open
   \/ (exists event, Open = KeyDown event)
   \/ (exists files, Open = Settle OpenDialogTimer (Fired files)))
  /\ (fsAccessApiWorks
        (setInputRef (Some Sample.input) (initialState (env:=Sample.env) Sample.plain))
      = true
      \/ inputRef
           (setInputRef (Some Sample.input) (initialState (env:=Sample.env) Sample.plain))
         <> None).
Proof.
  apply (dialog_opens_only_on_request (env:=Sample.env) Sample.plain Open
           (setInputRef (Some Sample.input) (initialState (env:=Sample.env) Sample.plain)));
    reflexivity.
Defined.

(** Drag state is raised by drag-enters only: a step takes drag-active from
    false to true only if it is a drag-enter whose event exposes files
    synchronously, or the fulfilled extraction of a drag-enter.  Drops,
    leaves, drag-overs, focus, clicks and the dialog never do. *)
Theorem drag_activates_only_on_enter
    {env : Env} (props : Props) (i : Input) (s : State) :
  isDragActive s = false ->
  isDragActive (state_after (handle props i) s) = true ->
  (exists event, i = DragEnter event /\ syncFilesOf event <> None)
  \/ (exists event files stopped,
        i = Settle (EnterExtraction event) (Fulfilled files stopped)
        /\ stopped && negb (noDragEventsBubbling props) = false).
Proof.
  intros Hidle Hactive.
  assert (Hkeep :
    (forall event, i <> DragEnter event) ->
    (forall event files stopped,
       i <> Settle (EnterExtraction event) (Fulfilled files stopped)) ->
    preserves (fun st => isDragActive st = false) (handle props i)).
  { intros Henter Hextraction.
    destruct i as [event| | | | | | | | | | | | | |t o];
      try (unfold_handlers; frame; cbn; first [assumption | reflexivity]).
    - by destruct (Henter event).
    - destruct t, o; try (unfold_handlers; frame; cbn; first [assumption | reflexivity]).
      by destruct (Hextraction event files propagationStopped). }
  destruct i as [event| | | | | | | | | | | | | |t o];
    try (exfalso; apply Hkeep in Hidle;
         [congruence | intros; discriminate | intros; discriminate]).
  - left. exists event. split; [reflexivity|].
    intros Hnone. cbn [handle] in Hactive.
    rewrite (onDragEnterCb_async_active props event s Hnone) in Hactive. congruence.
  - destruct t as [event|event| | | |], o as [files stopped|e|files];
      try (exfalso; apply Hkeep in Hidle;
           [congruence | intros; discriminate | intros; discriminate]).
    right. exists event, files, stopped. split; [reflexivity|].
    destruct (stopped && negb (noDragEventsBubbling props)) eqn:Hswallowed; [|reflexivity].
    exfalso. revert Hactive. cbn [handle]. unfold settle. cbn [continuation].
    rewrite state_after_bind. cbn.
    destruct (list_find _ _) as [[j t']|]; [|cbn; congruence].
    rewrite state_after_bind. cbn. unfold onDragEnterCb_then. rewrite Hswallowed.
    cbn. congruence.
Qed.

(** A pdf dragged over the sample zone. *)
Lemma drag_activates_only_on_enter_witness :
  (exists event,
     DragEnter (Sample.dragEvent Sample.root [Sample.pdf]) = DragEnter event
     /\ syncFilesOf event <> None)
  \/ (exists event files stopped,
        DragEnter (Sample.dragEvent Sample.root [Sample.pdf]) =
        Settle (EnterExtraction event) (Fulfilled files stopped)
        /\ stopped && negb (noDragEventsBubbling Sample.plain) = false).
Proof.
  apply (drag_activates_only_on_enter (env:=Sample.env) Sample.plain
           (DragEnter (Sample.dragEvent Sample.root [Sample.pdf]))
           (initialState (env:=Sample.env) Sample.plain));
    reflexivity.
Defined.

(** ** More on the prop getters *)

(** The tab stop goes with the keyboard handlers.  The root bundle has a
    key-down handler exactly when it has focus and blur handlers, and exactly
    when the [tabindex] effect sets the attribute on the bound root rather
    than removing it.  A [tabIndex] the caller passes to the getter is the
    bundle's [tabIndex] whatever the props are; when it passes none, the
    bundle has [tabIndex: 0] exactly when it has the key-down handler, and no
    [tabIndex] otherwise.  [noKeyboard] alone takes the keyboard handlers
    away and leaves the click handler. *)
Theorem tab_stop_follows_keyboard
    {env : Env} (props : Props) (user : RootHandlers) (s : State) (root : Node) :
  rootRef s = Some root ->
  (root_onKeyDown (getRootProps props user) <> None <->
   root_onFocus (getRootProps props user) <> None
   /\ root_onBlur (getRootProps props user) <> None)
  /\ (root_onKeyDown (getRootProps props user) <> None <->
      tabindexEffect props s = [SetAttribute root "tabindex" "0"])
  /\ (root_onKeyDown (getRootProps props user) = None <->
      tabindexEffect props s = [RemoveAttribute root "tabindex"])
  /\ (forall index,
        root_tabIndex user = Some index ->
        root_tabIndex (getRootProps props user) = Some index)
  /\ (root_tabIndex user = None ->
      (root_tabIndex (getRootProps props user) = Some 0 <->
       root_onKeyDown (getRootProps props user) <> None)
      /\ (root_tabIndex (getRootProps props user) = None <->
          root_onKeyDown (getRootProps props user) = None))
  /\ (noKeyboard props = true -> disabled props = false ->
      root_onKeyDown (getRootProps props user) = None
      /\ root_onClick (getRootProps props user) <> None).
Proof.
  intros Hroot.
  unfold tabindexEffect, getRootProps, composeKeyboardHandler, composeHandler.
  rewrite Hroot. cbn.
  split; [|split; [|split; [|split; [|split]]]].
  - destruct (disabled props), (noKeyboard props); cbn; split;
      first [intros [? ?]; congruence | intros ?; split; congruence | intros ?; congruence].
  - destruct (disabled props), (noKeyboard props); cbn; split; intros ?; congruence.
  - destruct (disabled props), (noKeyboard props); cbn; split; intros ?; congruence.
  - intros index Hindex. by rewrite Hindex.
  - intros Hnone. rewrite Hnone.
    destruct (disabled props), (noKeyboard props); cbn; split; split; intros ?; congruence.
  - intros Hkeyboard Henabled. rewrite Hkeyboard, Henabled. cbn. split; congruence.
Qed.

(** The sample zone with its root bound and no [tabIndex] from the caller
    has a tab stop. *)
Lemma tab_stop_follows_keyboard_witness :
  root_onKeyDown (getRootProps (env:=Sample.env) Sample.plain noRootOverrides) <> None <->
  tabindexEffect Sample.plain
    (setRootRef (Some Sample.root) (initialState (env:=Sample.env) Sample.plain))
  = [SetAttribute Sample.root "tabindex" "0"].
Proof.
  exact (proj1 (proj2
    (tab_stop_follows_keyboard (env:=Sample.env) Sample.plain noRootOverrides
       (setRootRef (Some Sample.root) (initialState (env:=Sample.env) Sample.plain))
       Sample.root eq_refl))).
Defined.

(** [noDrag] takes the four drag handlers out of the root bundle whatever
    the other props are, bubbling suppression included, so a drag event
    dispatched to the zone changes nothing and calls nothing; the click and
    change handlers are not affected. *)
Theorem noDrag_removes_drag_handlers
    {env : Env} (props : Props) (user : RootHandlers) (input : InputHandlers)
    (event : DomEvent) (s : State) :
  noDrag props = true ->
  root_onDragEnter (getRootProps props user) = None
  /\ root_onDragOver (getRootProps props user) = None
  /\ root_onDragLeave (getRootProps props user) = None
  /\ root_onDrop (getRootProps props user) = None
  /\ exec (dispatch (root_onDragEnter (getRootProps props user)) event) s = (s, [])
  /\ exec (dispatch (root_onDrop (getRootProps props user)) event) s = (s, [])
  /\ (disabled props = false ->
      root_onClick (getRootProps props user) <> None
      /\ input_onChange (getInputProps props input) <> None).
Proof.
  intros HnoDrag.
  unfold getRootProps, getInputProps, composeDragHandler, composeHandler.
  cbn. rewrite HnoDrag. do 6 (split; [reflexivity|]).
  intros Henabled. rewrite !Henabled. split; discriminate.
Qed.

(** A zone with [noDrag] and bubbling suppression. *)
Lemma noDrag_removes_drag_handlers_witness :
  root_onDrop
    (getRootProps (env:=Sample.env)
       {| acceptAttr := None; disabled := false; maxSize := Infinity; minSize := 0;
          multiple := true; maxFiles := 0;
          onDragEnter := true; onDragLeave := true; onDragOver := true;
          onDrop := true; onDropAccepted := true; onDropRejected := true;
          onFileDialogCancel := true; onFileDialogOpen := true;
          useFsAccessApi := false; autoFocus := false; preventDropOnDocument := true;
          noClick := false; noKeyboard := false; noDrag := true;
          noDragEventsBubbling := true; onError := true; validator := None |}
       noRootOverrides) = None.
Proof.
  refine (proj1 (proj2 (proj2 (proj2
    (noDrag_removes_drag_handlers (env:=Sample.env) _ noRootOverrides noInputOverrides
       (Sample.plainEvent Sample.root) (initialState (env:=Sample.env) Sample.plain)
       _))))).
  reflexivity.
Defined.

(** ** More on drop and on closing the dialog *)

Section Waves.

Context {env : Env}.
Variable props : Props.

Lemma setFiles_log_drop_calls (files : list File) (event : option DomEvent) (s : State) :
  List.filter isDropCall (log_of (setFiles props files event) s) =
  log_of (setFiles props files event) s.
Proof.
  rewrite setFiles_log. destruct event as [ev|]; [|reflexivity].
  destruct (onDrop props), (nonEmpty _ && onDropRejected props),
    (nonEmpty _ && onDropAccepted props); reflexivity.
Qed.

Lemma setFiles_log_stateless (files : list File) (event : option DomEvent) (s s' : State) :
  log_of (setFiles props files event) s = log_of (setFiles props files event) s'.
Proof. by rewrite !setFiles_log. Qed.

Lemma stopPropagation_no_drop_calls (event : DomEvent) (s : State) :
  List.filter isDropCall (log_of (stopPropagation props event) s) = [].
Proof.
  unfold stopPropagation. step_handler.
  by destruct (noDragEventsBubbling props), (hasStopImmediatePropagation event).
Qed.

End Waves.

(** A file-carrying drop whose transfer exposes its files synchronously
    calls back twice.  The handler runs the pipeline on the synchronous
    files and makes the drop callbacks; it also leaves the extraction
    pending, and when that is fulfilled and not swallowed (propagation not
    stopped, or bubbling suppression on) the pipeline runs again and the
    callbacks are made again.  If the extractor yields the same files, the
    second wave repeats the first call for call. *)
Theorem drop_calls_back_twice
    {env : Env} (props : Props) (event : DomEvent) (files : list File) (s st : State)
    (propagationStopped : bool) :
  syncFilesOf event = Some files ->
  isEvtWithFiles event = true ->
  propagationStopped && negb (noDragEventsBubbling props) = false ->
  List.filter isDropCall (log_of (onDropCb props event) s) =
    log_of (setFiles props files (Some event)) s
  /\ DropExtraction event ∈ pending (state_after (onDropCb props event) s)
  /\ log_of (onDropCb_then props event files propagationStopped) st =
     log_of (setFiles props files (Some event)) s.
Proof.
  intros Hsync Hfiles Hkept.
  assert (Hin : dataTransferIn event = true).
  { unfold syncFilesOf in Hsync. unfold dataTransferIn.
    destruct (dataTransfer event); congruence. }
  split; [|split].
  - unfold onDropCb, resetDragState. rewrite Hin, Hfiles, Hsync. cbn [when].
    rewrite !log_of_bind, !List.filter_app, stopPropagation_no_drop_calls,
      setFiles_log_drop_calls.
    cbn. rewrite !app_nil_r. apply setFiles_log_stateless.
  - rewrite onDropCb_pending, Hin, Hfiles. apply elem_of_app. right. constructor.
  - unfold onDropCb_then. rewrite Hkept. apply setFiles_log_stateless.
Qed.

(** A pdf dropped on a zone with bubbling suppression, where propagation is
    stopped by the time the extraction comes back: [onDrop] and
    [onDropAccepted] are called again. *)
Lemma drop_calls_back_twice_witness :
  log_of
    (onDropCb_then (env:=Sample.env) (Sample.listening None true 0 None false true false)
       (Sample.dragEvent Sample.root [Sample.pdf]) [Sample.pdf] true)
    (initialState (env:=Sample.env) Sample.plain)
  = log_of
      (setFiles (env:=Sample.env) (Sample.listening None true 0 None false true false)
         [Sample.pdf] (Some (Sample.dragEvent Sample.root [Sample.pdf])))
      (initialState (env:=Sample.env) Sample.plain).
Proof.
  exact (proj2 (proj2
    (drop_calls_back_twice (env:=Sample.env)
       (Sample.listening None true 0 None false true false)
       (Sample.dragEvent Sample.root [Sample.pdf]) [Sample.pdf]
       (initialState (env:=Sample.env) Sample.plain)
       (initialState (env:=Sample.env) Sample.plain) true eq_refl eq_refl eq_refl))).
Defined.

(** The dialog is marked closed in three places only: a step takes the
    dialog flag from true to false only if it is the focus timer firing
    while the bound input holds no files, a fulfilled picker promise, or a
    picker promise rejected with an abort.  In particular a change event of
    the input, which delivers the files picked through the legacy dialog,
    leaves the flag as it is. *)
Theorem dialog_closes_only_on
    {env : Env} (props : Props) (i : Input) (s : State) :
  isFileDialogActive s = true ->
  isFileDialogActive (state_after (handle props i) s) = false ->
  (exists files, i = Settle FocusTimer (Fired files)
                 /\ default [] files = [] /\ inputRef s <> None)
  \/ (exists files stopped, i = Settle PickerPromise (Fulfilled files stopped))
  \/ (exists e, i = Settle PickerPromise (Rejected e) /\ isAbort e = true).
Proof.
  intros Hactive Hclosed.
  assert (Hkeep :
    (forall files, i <> Settle FocusTimer (Fired files)) ->
    (forall o, i <> Settle PickerPromise o) ->
    preserves (fun st => isFileDialogActive st = true) (handle props i)).
  { intros Htimer Hpicker.
    destruct i as [| | | | | | | | | | | | | |t o];
      try (unfold_handlers; frame; cbn; first [assumption | reflexivity]).
    destruct t; try (by destruct (Hpicker o));
      destruct o; try (unfold_handlers; frame; cbn; first [assumption | reflexivity]).
    by destruct (Htimer inputFiles). }
  destruct i as [| | | | | | | | | | | | | |t o];
    try (exfalso; apply Hkeep in Hactive;
         [congruence | intros; discriminate | intros; discriminate]).
  destruct t as [event|event| | | |];
    try (exfalso; apply Hkeep in Hactive;
         [congruence | intros; discriminate | intros; discriminate]).
  - (* the picker promise *)
    destruct o as [files stopped|e|files].
    + right. left. by exists files, stopped.
    + right. right. exists e. split; [reflexivity|].
      destruct (isAbort e) eqn:Habort; [reflexivity|]. exfalso.
      revert Hclosed. cbn [handle]. unfold settle. cbn [continuation].
      rewrite state_after_bind. cbn.
      destruct (list_find _ _) as [[j t']|]; [|cbn; congruence].
      rewrite state_after_bind. cbn.
      unfold openFileDialog_catch, onErrCb. rewrite Habort.
      destruct (isSecurityError e); step_handler; cbn.
      * destruct (inputRef s); [cbn; congruence|].
        destruct (onError props); cbn; congruence.
      * destruct (onError props); cbn; congruence.
    + exfalso. revert Hclosed. cbn [handle]. unfold settle. cbn [continuation].
      rewrite state_after_bind. cbn. congruence.
  - (* the focus timer *)
    destruct o as [files stopped|e|files];
      try (exfalso; revert Hclosed; cbn [handle]; unfold settle; cbn [continuation];
           rewrite state_after_bind; cbn; congruence).
    left. exists files. split; [reflexivity|].
    revert Hclosed. cbn [handle]. unfold settle. cbn [continuation].
    rewrite state_after_bind. cbn.
    destruct (list_find _ _) as [[j t']|]; [|cbn; congruence].
    rewrite state_after_bind. cbn. unfold onWindowFocus_timeout. step_handler. cbn.
    destruct (inputRef s); [|cbn; congruence].
    destruct (default [] files); cbn; [|congruence].
    intros _. split; [reflexivity | discriminate].
Qed.

(** The legacy dialog dismissed on the sample zone: the timer closes it. *)
Lemma dialog_closes_only_on_witness :
  (exists files, Settle FocusTimer (Fired None) = Settle FocusTimer (Fired files)
                 /\ default [] files = []
                 /\ inputRef
                      (state_after
                         (run (env:=Sample.env)
                            (under Sample.plain [BindInput Sample.input; Open; WindowFocus]))
                         (initialState (env:=Sample.env) Sample.plain)) <> None)
  \/ (exists files stopped,
        Settle FocusTimer (Fired None) = Settle PickerPromise (Fulfilled files stopped))
  \/ (exists e, Settle FocusTimer (Fired None) = Settle PickerPromise (Rejected e)
                /\ isAbort (Env:=Sample.env) e = true).
Proof.
  apply (dialog_closes_only_on (env:=Sample.env) Sample.plain
           (Settle FocusTimer (Fired None))
           (state_after
              (run (env:=Sample.env)
                 (under Sample.plain [BindInput Sample.input; Open; WindowFocus]))
              (initialState (env:=Sample.env) Sample.plain)));
    reflexivity.
Defined.

(** ** Enter and leave through the root bundle *)

Section Zone.

Context {env : Env}.
Variable props : Props.
Variable user : RootHandlers.
Hypothesis drag_on : noDrag props = false.
Hypothesis enabled : disabled props = false.

(** A drag slot of the bundle, with no caller handler in it, runs the
    callback prop and then the hook's handler, behind the wrapper when
    bubbling suppression is on. *)
Lemma drag_slot_exec (supplied : bool) (call : DomEvent -> Effect) (own : Handler)
    (event : DomEvent) (s : State) :
  exec
    (dispatch
       (composeDragHandler props
          (composeEventHandlers (callback supplied call) (composeEventHandlers None own)))
       event) s =
  (state_after (own event) s, inFront props supplied call event ++ log_of (own event) s).
Proof.
  unfold composeDragHandler, composeHandler, inFront. rewrite drag_on, enabled.
  unfold composeEventHandlers, callback, dispatch.
  destruct (noDragEventsBubbling props), supplied;
    rewrite exec_pair, ?state_after_bind, ?log_of_bind; cbn; reflexivity.
Qed.

Lemma zone_leave_exec (event : DomEvent) (s : State) :
  root_onDragLeave user = None ->
  state_after (zoneHandle props user (ToRoot root_onDragLeave event)) s =
    state_after (onDragLeaveCb props event) s
  /\ log_of (zoneHandle props user (ToRoot root_onDragLeave event)) s =
     inFront props (onDragLeave props) CallOnDragLeave event ++ log_of (onDragLeaveCb props event) s.
Proof.
  intros Hnone.
  pose proof (drag_slot_exec (onDragLeave props) CallOnDragLeave (onDragLeaveCb props) event s) as Hexec.
  rewrite exec_pair in Hexec. injection Hexec as Hstate Hlog.
  cbn [zoneHandle getRootProps root_onDragLeave]. rewrite Hnone. by split.
Qed.


Lemma zone_drop_exec (event : DomEvent) (s : State) :
  root_onDrop user = None ->
  state_after (zoneHandle props user (ToRoot root_onDrop event)) s =
    state_after (onDropCb props event) s
  /\ log_of (zoneHandle props user (ToRoot root_onDrop event)) s =
     inFront props (onDrop props) CallOnDropAsHandler event ++ log_of (onDropCb props event) s.
Proof.
  intros Hnone.
  pose proof (drag_slot_exec (onDrop props) CallOnDropAsHandler (onDropCb props) event s) as Hexec.
  rewrite exec_pair in Hexec. injection Hexec as Hstate Hlog.
  cbn [zoneHandle getRootProps root_onDrop]. rewrite Hnone. by split.
Qed.











End Zone.




(** What follows a drop, on a zone with its drag handlers (not disabled,
    [noDrag] off) and no caller handlers.  After a drop dispatched to the
    root no target is tracked, and a drag-leave dispatched to the root
    changes no state; the only calls it makes are the ones the bundle runs
    in front of the hook's handler, [stopPropagation] under bubbling
    suppression and [onDragLeave] if supplied.  A drop intercepted on the
    document inside the root changes and prevents nothing; outside the root
    it prevents the default, clears the tracked targets and leaves the drag
    flags, and a drag-leave after it is handled in the same way. *)
Theorem drag_leave_after_drop
    {env : Env} (props : Props) (drop leave : DomEvent) (s : State) :
  noDrag props = false ->
  disabled props = false ->
  let dropped := state_after (zoneHandle props noRootOverrides (ToRoot root_onDrop drop)) s in
  let stray := state_after (onDocumentDrop drop) s in
  dragTargets dropped = []
  /\ exec (zoneHandle props noRootOverrides (ToRoot root_onDragLeave leave)) dropped =
     (dropped, inFront props (onDragLeave props) CallOnDragLeave leave)
  /\ (if rootContains (rootRef s) (target drop)
      then exec (onDocumentDrop drop) s = (s, [])
      else log_of (onDocumentDrop drop) s = [PreventDefault drop]
           /\ dragTargets stray = []
           /\ dragFlags stray = dragFlags s
           /\ exec (zoneHandle props noRootOverrides (ToRoot root_onDragLeave leave)) stray =
              (stray, inFront props (onDragLeave props) CallOnDragLeave leave)).
Proof.
  intros Hdrag Henabled dropped stray.
  assert (Hleave : forall st,
    dragTargets st = [] ->
    exec (zoneHandle props noRootOverrides (ToRoot root_onDragLeave leave)) st =
    (st, inFront props (onDragLeave props) CallOnDragLeave leave)).
  { intros st Hnone.
    destruct (zone_leave_exec props noRootOverrides Hdrag Henabled leave st eq_refl)
      as [Hstate Hlog].
    assert (Hskip : exec (onDragLeaveCb props leave) st = (st, [])).
    { apply onDragLeaveCb_untracked. rewrite Hnone. apply not_elem_of_nil. }
    rewrite exec_pair in Hskip. injection Hskip as Hs Hl.
    rewrite exec_pair, Hstate, Hlog, Hs, Hl. by rewrite app_nil_r. }
  assert (Hdropped : dragTargets dropped = []).
  { subst dropped.
    destruct (zone_drop_exec props noRootOverrides Hdrag Henabled drop s eq_refl) as [-> _].
    by destruct (onDropCb_resets props drop s). }
  split; [exact Hdropped|]. split; [by apply Hleave|].
  subst stray. pose proof (onDocumentDrop_exec drop s) as Hexec.
  destruct (rootContains (rootRef s) (target drop)); [exact Hexec|].
  rewrite exec_pair in Hexec. injection Hexec as Hstate Hlog.
  rewrite Hstate, Hlog. repeat split. by apply Hleave.
Qed.

(** A pdf dropped on the sample zone, then a leave on a child. *)
Lemma drag_leave_after_drop_witness :
  exec
    (zoneHandle (env:=Sample.env) Sample.plain noRootOverrides
       (ToRoot root_onDragLeave (Sample.dragEvent Sample.child [Sample.pdf])))
    (state_after
       (zoneHandle (env:=Sample.env) Sample.plain noRootOverrides
          (ToRoot root_onDrop (Sample.dragEvent Sample.root [Sample.pdf])))
       (setRootRef (Some Sample.root) (initialState (env:=Sample.env) Sample.plain)))
  = (state_after
       (zoneHandle (env:=Sample.env) Sample.plain noRootOverrides
          (ToRoot root_onDrop (Sample.dragEvent Sample.root [Sample.pdf])))
       (setRootRef (Some Sample.root) (initialState (env:=Sample.env) Sample.plain)),
     inFront Sample.plain (onDragLeave Sample.plain) CallOnDragLeave
       (Sample.dragEvent Sample.child [Sample.pdf])).
Proof.
  exact (proj1 (proj2
    (drag_leave_after_drop (env:=Sample.env) Sample.plain
       (Sample.dragEvent Sample.root [Sample.pdf])
       (Sample.dragEvent Sample.child [Sample.pdf])
       (setRootRef (Some Sample.root) (initialState (env:=Sample.env) Sample.plain))
       eq_refl eq_refl))).
Defined.
